(** * ConsoleVerse: a shallow embedding of the console printing library

    The development follows the Python sources

    - [consoleverse/term/new_colors.py]   (colour, background and style tables),
    - [consoleverse/exceptions/ex_console.py] (the console error classes),
    - [consoleverse/console.py]           (the Console Engine),
    - [consoleverse/__init__.py]          (the Legacy Facade).

    Python [str] values are Rocq [string]s, one [ascii] per character; Python
    [int]s are [Z]; the process-wide class attributes, standard output and the
    log of [os.system] calls form an explicit [World] threaded through a small
    state-and-exception monad. *)

From Stdlib Require Import String Ascii List ZArith QArith Qround Lia Bool.
From Stdlib Require Import DecimalString SpecFloat.
Import ListNotations.
Open Scope string_scope.
Open Scope Z_scope.

Set Implicit Arguments.

(* ------------------------------------------------------------------ *)
(** ** Python string primitives                                        *)
(* ------------------------------------------------------------------ *)

(** [len(s)] *)
Definition len (s : string) : Z := Z.of_nat (String.length s).

(** [s * n] for a [nat] count. *)
Fixpoint str_rep (s : string) (n : nat) : string :=
  match n with
  | O => ""
  | S k => s ++ str_rep s k
  end.

(** [s * n]: a count below one gives the empty string. *)
Definition str_mul (s : string) (n : Z) : string := str_rep s (Z.to_nat n).

(** The effective end position of the slice [s[:stop]] on a string of
    length [l]: a negative [stop] counts from the end, and the result is
    clamped to [0 .. l]. *)
Definition slice_stop (l stop : Z) : Z :=
  if stop <? 0 then Z.max 0 (l + stop) else Z.min stop l.

(** [s[:stop]] *)
Definition slice_to (s : string) (stop : Z) : string :=
  substring 0 (Z.to_nat (slice_stop (len s) stop)) s.

(** [sep.join(parts)] *)
Fixpoint join (sep : string) (parts : list string) : string :=
  match parts with
  | [] => ""
  | [x] => x
  | x :: rest => x ++ sep ++ join sep rest
  end.

Definition upper_char (c : ascii) : ascii :=
  let n := nat_of_ascii c in
  if andb (Nat.leb 97 n) (Nat.leb n 122) then ascii_of_nat (n - 32) else c.

(** [s.upper()], on the ASCII letters. *)
Fixpoint upper (s : string) : string :=
  match s with
  | EmptyString => EmptyString
  | String c r => String (upper_char c) (upper r)
  end.

Definition newline : string := String (ascii_of_nat 10) "".

(** [s.split('\n')] *)
Fixpoint split_lines (s : string) : list string :=
  match s with
  | EmptyString => [""]
  | String c r =>
      if Ascii.eqb c (ascii_of_nat 10) then "" :: split_lines r
      else match split_lines r with
           | h :: t => String c h :: t
           | [] => [String c ""]
           end
  end.

(** [str(n)] for an [int]. *)
Definition str_of_int (n : Z) : string := NilZero.string_of_int (Z.to_int n).

(** [f'{s: ^{w}}']: centred in a field of [w], the left padding being the
    smaller half. *)
Definition center (s : string) (w : Z) : string :=
  let pad := w - len s in
  if pad <=? 0 then s
  else str_mul " " (pad / 2) ++ s ++ str_mul " " (pad - pad / 2).

(** [f'{s: >{w}}']: right-justified in a field of [w]. *)
Definition rjust (s : string) (w : Z) : string :=
  str_mul " " (w - len s) ++ s.

(** The characters of a string, as iteration over a [str] yields them. *)
Fixpoint chars (s : string) : list string :=
  match s with
  | EmptyString => []
  | String c r => String c "" :: chars r
  end.

(** Membership of a string in a tuple of strings ([x in ('a', 'b')]). *)
Definition str_in (x : string) (l : list string) : bool :=
  existsb (String.eqb x) l.

(* ------------------------------------------------------------------ *)
(** ** Exceptions, outcomes and the world                              *)
(* ------------------------------------------------------------------ *)

(** The language codes of [consoleverse.config.lang]. *)
Inductive Lang := en | es.

(** The exceptions the modelled code can raise.  The first three are the
    classes of [ex_console.py], each storing its constructor argument. *)
Inductive exn :=
| ErrorNotDefinedStyle (style : string)
| ErrorNotDefinedBorderStyle (border_style : string)
| ErrorNotDefinedColor (color : string)
| ColorTextError (color : string)
| ColorBackgroundError (background : string)
| ColorStyleError (style : string)
| ValueError (msg : string)
| IndexError
| OverflowError (msg : string).

Inductive outcome (A : Type) :=
| Ok (a : A)
| Raise (e : exn).
Arguments Ok {A} a.
Arguments Raise {A} e.

Definition dq : string := String (ascii_of_nat 34) EmptyString.

(** [ErrorNotDefinedStyle.MSG] and its siblings: the template halves around
    the [{}] placeholder. *)
Definition MSG_style (l : Lang) : string * string :=
  match l with
  | en => ("The style " ++ dq, dq ++ " is not defined in the consoleverse")
  | es => ("El estilo " ++ dq, dq ++ " no esta definido en el consoleverse")
  end.

Definition MSG_border_style (l : Lang) : string * string :=
  match l with
  | en => ("The border style " ++ dq, dq ++ " is not defined in the consoleverse")
  | es => ("El estilo de borde " ++ dq, dq ++ " no esta definido en el consoleverse")
  end.

Definition MSG_color (l : Lang) : string * string :=
  match l with
  | en => ("The color " ++ dq, dq ++ " is not defined in the consoleverse")
  | es => ("El color " ++ dq, dq ++ " no esta definido en el consoleverse")
  end.

Definition format1 (t : string * string) (arg : string) : string :=
  fst t ++ arg ++ snd t.

(** [__str__] of the three console errors: the template of the current
    language (the selection itself lives in the [lang] module, which is not
    among the sources) with the stored name interpolated. *)
Definition console_error_str (l : Lang) (e : exn) : option string :=
  match e with
  | ErrorNotDefinedStyle s => Some (format1 (MSG_style l) s)
  | ErrorNotDefinedBorderStyle s => Some (format1 (MSG_border_style l) s)
  | ErrorNotDefinedColor s => Some (format1 (MSG_color l) s)
  | _ => None
  end.

(** Class attributes of [_ConsoleConfig] in [console.py]. *)
Record _ConsoleConfig := mk_ConsoleConfig {
  _indentation_type : string;
  _indentation_lvl : string;
  _indentantion_size : Z;
  _is_init : bool;
  _autoreset_colors : bool
}.

(** Class attributes of [ConsoleConfig] in [__init__.py]. *)
Record ConsoleConfig := mkConsoleConfig {
  indentation_type : string;
  indentation_lvl : string;
  indentantion_size : Z;
  is_start_console : bool;
  autoreset_colors : bool
}.

(** Assignment to [ConsoleConfig.is_start_console]. *)
Definition with_is_start_console (b : bool) (c : ConsoleConfig) : ConsoleConfig :=
  mkConsoleConfig (indentation_type c) (indentation_lvl c) (indentantion_size c)
                  b (autoreset_colors c).

(** Assignment to [_ConsoleConfig._is_init]. *)
Definition with_is_init (b : bool) (c : _ConsoleConfig) : _ConsoleConfig :=
  mk_ConsoleConfig (_indentation_type c) (_indentation_lvl c)
                   (_indentantion_size c) b (_autoreset_colors c).

(** Assignment to the indentation strings of the two classes. *)
Definition with_indentation_lvl (s : string) (c : ConsoleConfig) : ConsoleConfig :=
  mkConsoleConfig (indentation_type c) s (indentantion_size c)
                  (is_start_console c) (autoreset_colors c).

Definition with__indentation_lvl (s : string) (c : _ConsoleConfig) : _ConsoleConfig :=
  mk_ConsoleConfig (_indentation_type c) s (_indentantion_size c) (_is_init c)
                   (_autoreset_colors c).

(** Everything the code reads or changes outside its arguments. *)
Record World := mkWorld {
  engine : _ConsoleConfig;          (* console._ConsoleConfig *)
  facade : ConsoleConfig;           (* consoleverse.ConsoleConfig *)
  stdout : string;                  (* text written by print() *)
  os_calls : list string;           (* commands given to os.system, oldest first *)
  language : Lang;                  (* lang.lang() *)
  os_name : string;                 (* os.name *)
  platform_system : string          (* platform.system() *)
}.

Definition set_engine (c : _ConsoleConfig) (w : World) : World :=
  mkWorld c (facade w) (stdout w) (os_calls w) (language w) (os_name w)
          (platform_system w).

Definition set_facade (c : ConsoleConfig) (w : World) : World :=
  mkWorld (engine w) c (stdout w) (os_calls w) (language w) (os_name w)
          (platform_system w).

Definition set_stdout (s : string) (w : World) : World :=
  mkWorld (engine w) (facade w) s (os_calls w) (language w) (os_name w)
          (platform_system w).

Definition set_os_calls (l : list string) (w : World) : World :=
  mkWorld (engine w) (facade w) (stdout w) l (language w) (os_name w)
          (platform_system w).

(** The class-level defaults of both configuration classes. *)
Definition default_engine : _ConsoleConfig := mk_ConsoleConfig " " "" 2 false true.
Definition default_facade : ConsoleConfig := mkConsoleConfig " " "" 2 false true.

(** A process that has just imported the package, on a POSIX system. *)
Definition fresh_world : World :=
  mkWorld default_engine default_facade "" [] en "posix" "Linux".

(** Computations: a world in, an outcome and the world left behind out.
    Effects that took place before an exception stay in the world. *)
Definition M (A : Type) : Type := World -> outcome A * World.

Definition ret {A} (a : A) : M A := fun w => (Ok a, w).

Definition raise {A} (e : exn) : M A := fun w => (Raise e, w).

Definition bind {A B} (m : M A) (k : A -> M B) : M B :=
  fun w =>
    match m w with
    | (Ok a, w') => k a w'
    | (Raise e, w') => (Raise e, w')
    end.

Definition lift {A} (o : outcome A) : M A := fun w => (o, w).

Definition modify (f : World -> World) : M unit := fun w => (Ok tt, f w).

Definition read {A} (f : World -> A) : M A := fun w => (Ok (f w), w).

Declare Scope py_scope.
Delimit Scope py_scope with py.
Notation "x <- c ;; k" := (bind c (fun x => k))
  (at level 61, c at next level, right associativity) : py_scope.
Notation "c ;; k" := (bind c (fun _ => k))
  (at level 61, right associativity) : py_scope.
Open Scope py_scope.

(** [for x in l: body(x)] *)
Fixpoint for_each {A} (l : list A) (body : A -> M unit) : M unit :=
  match l with
  | [] => ret tt
  | x :: rest => body x ;; for_each rest body
  end.

(** [print(text, end=endl)] *)
Definition print (text endl : string) : M unit :=
  modify (fun w => set_stdout (stdout w ++ text ++ endl) w).

(** [os.system(cmd)] *)
Definition os_system (cmd : string) : M unit :=
  modify (fun w => set_os_calls (os_calls w ++ [cmd]) w).

(* ------------------------------------------------------------------ *)
(** ** term/new_colors.py                                              *)
(* ------------------------------------------------------------------ *)

Definition ESC : string := String (ascii_of_nat 27) "".

(** [_ColorBase] *)
Definition RESET_FORMAT_COLOR : Z := 0.
Definition START_FORMAT_COLOR (code : Z) : string :=
  ESC ++ "[" ++ str_of_int code ++ "m".
Definition END_FORMAT_COLOR : string := START_FORMAT_COLOR RESET_FORMAT_COLOR.
Definition start (color : Z) : string := START_FORMAT_COLOR color.
Definition reset : string := END_FORMAT_COLOR.

(** A [dict] with string keys, in insertion order. *)
Fixpoint dict_get (d : list (string * string)) (k : string) : option string :=
  match d with
  | [] => None
  | (k', v) :: rest => if String.eqb k k' then Some v else dict_get rest k
  end.

Definition dict_has (d : list (string * string)) (k : string) : bool :=
  match dict_get d k with Some _ => true | None => false end.

Module ColorText.
Definition BLACK_CODE : Z := 30.
Definition RED_CODE : Z := 31.
Definition GREEN_CODE : Z := 32.
Definition YELLOW_CODE : Z := 33.
Definition BLUE_CODE : Z := 34.
Definition MAGENTA_CODE : Z := 35.
Definition CYAN_CODE : Z := 36.
Definition WHITE_CODE : Z := 37.

Definition COLORS : list (string * string) :=
  [ ("BLACK", start BLACK_CODE); ("RED", start RED_CODE);
    ("GREEN", start GREEN_CODE); ("YELLOW", start YELLOW_CODE);
    ("BLUE", start BLUE_CODE); ("MAGENTA", start MAGENTA_CODE);
    ("CYAN", start CYAN_CODE); ("WHITE", start WHITE_CODE) ].

Definition COLORS_LIST : list string := map fst COLORS.

(** [__getitem__] *)
Definition getitem (color : string) : outcome string :=
  match dict_get COLORS (upper color) with
  | Some v => Ok v
  | None => Raise (ColorTextError color)
  end.

(** [__contains__] *)
Definition contains (color : string) : bool := dict_has COLORS (upper color).
End ColorText.

Module ColorBackground.
Definition BG_BLACK_CODE : Z := 40.
Definition BG_RED_CODE : Z := 41.
Definition BG_GREEN_CODE : Z := 42.
Definition BG_YELLOW_CODE : Z := 43.
Definition BG_BLUE_CODE : Z := 44.
Definition BG_MAGENTA_CODE : Z := 45.
Definition BG_CYAN_CODE : Z := 46.
Definition BG_WHITE_CODE : Z := 47.

Definition BACKGROUNDS : list (string * string) :=
  [ ("BG_BLACK", start BG_BLACK_CODE); ("BG_RED", start BG_RED_CODE);
    ("BG_GREEN", start BG_GREEN_CODE); ("BG_YELLOW", start BG_YELLOW_CODE);
    ("BG_BLUE", start BG_BLUE_CODE); ("BG_MAGENTA", start BG_MAGENTA_CODE);
    ("BG_CYAN", start BG_CYAN_CODE); ("BG_WHITE", start BG_WHITE_CODE) ].

Definition BACKGROUNDS_LIST : list string := map fst BACKGROUNDS.

Definition getitem (background : string) : outcome string :=
  match dict_get BACKGROUNDS (upper background) with
  | Some v => Ok v
  | None => Raise (ColorBackgroundError background)
  end.

Definition contains (background : string) : bool :=
  dict_has BACKGROUNDS (upper background).
End ColorBackground.

Module ColorStyle.
Definition BOLD_CODE : Z := 1.
Definition UNDERLINE_CODE : Z := 4.
Definition BLINK_CODE : Z := 5.
Definition REVERSE_CODE : Z := 7.
Definition CONCEAL_CODE : Z := 8.

Definition STYLES : list (string * string) :=
  [ ("BOLD", start BOLD_CODE); ("UNDERLINE", start UNDERLINE_CODE);
    ("BLINK", start BLINK_CODE); ("REVERSE", start REVERSE_CODE);
    ("CONCEAL", start CONCEAL_CODE) ].

Definition STYLES_LIST : list string := map fst STYLES.

Definition getitem (style : string) : outcome string :=
  match dict_get STYLES (upper style) with
  | Some v => Ok v
  | None => Raise (ColorStyleError style)
  end.

Definition contains (style : string) : bool := dict_has STYLES (upper style).
End ColorStyle.

(** Modelled from the spec: the class [StyleText] that [console.py] takes
    from [consoleverse.term] is not among the sources.  The spec gives the
    style table the same five entries, case-insensitive lookup and membership
    test as the two colour tables, which is what [ColorStyle] of
    [new_colors.py] implements. *)
Module StyleText.
Definition getitem : string -> outcome string := ColorStyle.getitem.
Definition contains : string -> bool := ColorStyle.contains.
End StyleText.


(* ------------------------------------------------------------------ *)
(** ** Python numbers                                                  *)
(* ------------------------------------------------------------------ *)

(** The numbers [progress_bar] is called with.  Python hands [<], [>],
    [*] and [int()] to the type of [progress]: an [int] or a [Fraction]
    computes exactly and is an exact rational here; a [float] is an IEEE 754
    binary64 number, given by its sign, mantissa and exponent, on which the
    operations round as the standard prescribes. *)
Inductive number :=
| Exact (q : Q)
| Float (f : spec_float).
Bind Scope Q_scope with number.
Coercion Exact : Q >-> number.

(** The format of a Python [float]. *)
Definition prec : Z := 53.
Definition emax : Z := 1024.

(** The floats [0.0] and [1.0]. *)
Definition float_0 : spec_float := S754_zero false.
Definition float_1 : spec_float := S754_finite false 4503599627370496 (-52).

(** The conversion of an [int] operand of a float operation: the nearest
    float, ties to even, and [OverflowError] for an [int] beyond the
    range of the floats. *)
Definition float_of_int (n : Z) : outcome spec_float :=
  match binary_normalize prec emax n 0 false with
  | S754_infinity _ | S754_nan =>
      Raise (OverflowError "int too large to convert to float")
  | f => Ok f
  end.

(** [int(f)] on a float: truncation towards zero; NaN and the infinities
    have no integer. *)
Definition int_of_float (f : spec_float) : outcome Z :=
  match f with
  | S754_zero _ => Ok 0
  | S754_finite s m e =>
      let magnitude := if 0 <=? e then Zpos m * 2 ^ e else Zpos m / 2 ^ (- e) in
      Ok (if s then - magnitude else magnitude)
  | S754_infinity _ =>
      Raise (OverflowError "cannot convert float infinity to integer")
  | S754_nan => Raise (ValueError "cannot convert float NaN to integer")
  end.


(* ------------------------------------------------------------------ *)
(** ** console.py: the Console Engine                                  *)
(* ------------------------------------------------------------------ *)

Module console.

Definition NAME : string := "ConsoleVerse".

Definition __START_LANGS (l : Lang) : string :=
  match l with en => "START" | es => "INICIA" end.

Definition __END_LANGS (l : Lang) : string :=
  match l with en => "END" | es => "TERMINA" end.

(** [clear_screen()] *)
Definition clear_screen : M unit :=
  name <- read os_name ;;
  os_system (if String.eqb name "nt" then "cls" else "clear").

(** [_ConsoleConfig.init(clear, indentation_type, indentation_size,
    autoreset_colors)] *)
Definition _ConsoleConfig_init (clear : bool) (indentation_type : string)
    (indentation_size : Z) (autoreset_colors : bool) : M unit :=
  modify (fun w =>
    set_engine (mk_ConsoleConfig indentation_type "" indentation_size
                  (_is_init (engine w)) autoreset_colors) w) ;;
  (if clear then clear_screen else ret tt) ;;
  modify (fun w => set_engine (with_is_init true (engine w)) w).

(** [_ConsoleConfig.reset_config()] *)
Definition _ConsoleConfig_reset_config : M unit :=
  modify (set_engine (mk_ConsoleConfig " " "" 2 false true)).

(** [_ConsoleConfig._init()] *)
Definition _ConsoleConfig__init : M unit :=
  modify (fun w =>
    if negb (_is_init (engine w)) then
      set_engine (with__indentation_lvl "" (with_is_init true (engine w))) w
    else w).

(** [_ConsoleConfig.indentation_lvl()] *)
Definition _ConsoleConfig_indentation_lvl : M string :=
  read (fun w => _indentation_lvl (engine w)).

(** [_ConsoleConfig.add_indentation_lvl()] *)
Definition _ConsoleConfig_add_indentation_lvl : M unit :=
  modify (fun w =>
    let c := engine w in
    set_engine (with__indentation_lvl
                  (_indentation_lvl c
                     ++ str_mul (_indentation_type c) (_indentantion_size c))
                  c) w).

(** [_ConsoleConfig.del_indentation_lvl()] *)
Definition _ConsoleConfig_del_indentation_lvl : M unit :=
  modify (fun w =>
    let c := engine w in
    set_engine (with__indentation_lvl
                  (slice_to (_indentation_lvl c) (- _indentantion_size c))
                  c) w).

(** [init(clear, indentation_type, indentation_size, autoreset_colors)] *)
Definition init (clear : bool) (indentation_type : string)
    (indentation_size : Z) (autoreset_colors : bool) : M unit :=
  _ConsoleConfig_init clear indentation_type indentation_size autoreset_colors ;;
  (if clear then clear_screen else ret tt) ;;
  modify (fun w => set_engine (with_is_init true (engine w)) w).

(** [reset_config()] *)
Definition reset_config : M unit := _ConsoleConfig_reset_config.

(** [add_lvl()] *)
Definition add_lvl : M unit := _ConsoleConfig_add_indentation_lvl.

(** [del_lvl()] *)
Definition del_lvl : M unit := _ConsoleConfig_del_indentation_lvl.

(** [_colorize(text, color, bg_color, style, reset_console_colors)] *)
Definition _colorize (text color bg_color style : string)
    (reset_console_colors : bool) : outcome string :=
  match (if ColorText.contains color then ColorText.getitem color else Ok "") with
  | Raise e => Raise e
  | Ok ctext =>
    match (if ColorBackground.contains bg_color
           then ColorBackground.getitem bg_color else Ok "") with
    | Raise e => Raise e
    | Ok cbaground =>
      match (if StyleText.contains style then StyleText.getitem style else Ok "") with
      | Raise e => Raise e
      | Ok stext =>
        let colorized_text := ctext ++ cbaground ++ stext ++ text in
        Ok (if reset_console_colors then colorized_text ++ reset
            else colorized_text)
      end
    end
  end.

(** [__to_string(values.., sep)]; the values are given by their [str()]. *)
Definition __to_string (values : list string) (sep : string) : string :=
  join sep values.

(** Modelled from the spec: the colour table's answer to a [color] of
    [None], the default that [print_matrix] hands to [println] for its
    cells.  The table classes that [console.py] imports live in
    [consoleverse.term], which is not among the sources; the spec lets the
    colour of a matrix be absent, and the docstring of [print_matrix] shows
    the default call printing its cells, so [None] is no member of the
    table.  The guard of [_colorize] then takes the empty sequence, as it
    does for the empty name, by which [None] is represented here. *)
Definition colour_name (color : option string) : string :=
  match color with
  | Some name => name
  | None => ""
  end.

(** The body of [println] for a [color] argument that is a [str]
    ([Some]) or [None]. *)
Definition println_any (message : list string) (endl : string) (withlvl : bool)
    (color : option string) (bg_color : string) (reset_all_colors : bool)
    (style sep : string) : M unit :=
  _ConsoleConfig__init ;;
  let message := __to_string message sep in
  lvl <- _ConsoleConfig_indentation_lvl ;;
  let message := if withlvl then lvl ++ message else message in
  colorized_text <-
    lift (_colorize message (colour_name color) bg_color style
                    reset_all_colors) ;;
  print colorized_text endl.

(** [println(message.., endl, withlvl, color, bg_color, reset_all_colors,
    style, sep)], the keyword arguments in the order of the signature. *)
Definition println (message : list string) (endl : string) (withlvl : bool)
    (color bg_color : string) (reset_all_colors : bool) (style sep : string)
    : M unit :=
  println_any message endl withlvl (Some color) bg_color reset_all_colors
              style sep.

(** [new_line()] *)
Definition new_line : M unit := println [""] newline false "" "" true "" " ".

(** [start_block(message.., color, bg_color)] *)
Definition start_block (message : list string) (color bg_color : string)
    : M unit :=
  let message := __to_string message " " in
  l <- read language ;;
  println [__START_LANGS l ++ " " ++ upper message]
          newline true color bg_color true "" " " ;;
  add_lvl.

(** [end_block(message.., color, bg_color, style)] *)
Definition end_block (message : list string) (color bg_color style : string)
    : M unit :=
  let message := __to_string message " " in
  del_lvl ;;
  l <- read language ;;
  println [__END_LANGS l ++ " " ++ upper message]
          newline true color bg_color true style " " ;;
  new_line.

(** [warning(message.., color, bg_color, style)] *)
Definition warning (message : list string) (color bg_color style : string)
    : M unit :=
  let message := __to_string message " " in
  println ["warning: " ++ message] newline true color bg_color true style " ".

(** [error(message.., color, bg_color, style)] *)
Definition error (message : list string) (color bg_color style : string)
    : M unit :=
  let message := __to_string message " " in
  println ["error: >>> " ++ message ++ " <<<"]
          newline true color bg_color true style " ".

(** [line(size, style, color, bg_color, style_text)] *)
Definition line (size : Z) (style color bg_color style_text : string)
    : M unit :=
  let line := str_mul style size in
  let line := if String.eqb (slice_to line (-1)) " "
              then slice_to line (-1) else line in
  println [line] newline true color bg_color true style_text " " ;;
  new_line.

(** *** Matrices

    A matrix is a list of rows, each row a list of cells, and a cell is
    given by its [str()] text.  [header] and [indexes] are [None], a
    [str] or a list of [str]. *)

Inductive labels :=
| LNone
| LStr (s : string)
| LList (l : list string).

(** What [for x in labels] iterates over. *)
Definition labels_iter (l : labels) : list string :=
  match l with
  | LNone => []
  | LStr s => chars s
  | LList l => l
  end.

(** Truth value of a [labels] argument. *)
Definition labels_truthy (l : labels) : bool :=
  match l with
  | LNone => false
  | LStr s => negb (String.eqb s "")
  | LList l => match l with [] => false | _ => true end
  end.

(** [labels == s] for a string [s]. *)
Definition labels_eq_str (l : labels) (s : string) : bool :=
  match l with
  | LStr s' => String.eqb s' s
  | _ => false
  end.

(** [labels[i]] *)
Definition labels_index (l : labels) (i : nat) : outcome string :=
  match nth_error (labels_iter l) i with
  | Some x => Ok x
  | None => Raise IndexError
  end.

(** The elements [__max_len_value] walks over: a list (a matrix row) or
    anything else (a label). *)
Inductive item :=
| Row (cells : list string)
| Atom (s : string).

(** The local function [max_value] of [__max_len_value], its free
    variables made arguments. *)
Definition max_value (nan_format : string) (max_len : Z) (cell : string) : Z :=
  let cellstr := if str_in cell ["None"; "nan"; "NaN"] then nan_format else cell in
  Z.max max_len (len cellstr).

(** [__max_len_value(matrix, nan_format)] *)
Definition __max_len_value (matrix : list item) (nan_format : string) : Z :=
  fold_left
    (fun max_len row =>
       match row with
       | Row cols => fold_left (max_value nan_format) cols max_len
       | Atom a => max_value nan_format max_len a
       end)
    matrix 0.

(** [[str(i) for i in range(n)]] *)
Definition range_strs (n : nat) : list string :=
  map (fun i => str_of_int (Z.of_nat i)) (seq 0 n).

(** [__print_matrix_header(header, len_index, color_index, extra_spacing,
    withlvl, max_len_value, lvl_space)] *)
Definition __print_matrix_header (header : labels) (len_index : Z)
    (color_index extra_spacing : string) (withlvl : bool)
    (max_len_value lvl_space : Z) : M unit :=
  let spaces := str_mul " " (len_index + lvl_space) in
  lvl <- _ConsoleConfig_indentation_lvl ;;
  let indentation := if withlvl then lvl else "" in
  println [indentation ++ spaces ++ extra_spacing] "" false "" "" true "" " " ;;
  for_each (labels_iter header) (fun h =>
    println [" " ++ center h max_len_value ++ " "] "" false color_index ""
            true "" " ") ;;
  new_line.

(** [__print_matrix_row(row, max_len_value, color, nan_format, color_style,
    color_index, end_line, start_line, index_name, indentation)] *)
Definition __print_matrix_row (row : list string) (max_len_value : Z)
    (color : option string) (nan_format color_style color_index end_line
     start_line index_name indentation : string) : M unit :=
  println [indentation] "" false "" "" true "" " " ;;
  println [index_name] "" false color_index "" true "" " " ;;
  println [start_line] "" false color_style "" true "" " " ;;
  for_each row (fun cell =>
    let cellstr := if negb (str_in cell ["None"; "nan"; "NaN"; ""])
                   then cell else nan_format in
    println_any [" " ++ center cellstr max_len_value ++ " "] "" false color ""
                true "" " ") ;;
  println [end_line] newline false color_style "" true "" " ".

(** [for index_row_id, row in enumerate(matrix): body(index_row_id, row)],
    counting from [i]. *)
Fixpoint for_enumerate {A} (i : nat) (l : list A) (body : nat -> A -> M unit)
    : M unit :=
  match l with
  | [] => ret tt
  | x :: rest => body i x ;; for_enumerate (S i) rest body
  end.

(** The [index_name] argument computed for row [i]. *)
Definition index_name_of (indexes : labels) (len_index : Z) (i : nat)
    : M string :=
  match indexes with
  | LNone => ret ""
  | _ => x <- lift (labels_index indexes i) ;; ret (rjust x len_index)
  end.

(** A line that is printed unless it is [None] or empty. *)
Definition print_border_line (border : option string) (color_style : string)
    : M unit :=
  match border with
  | Some l => if negb (String.eqb l "")
              then println [l] newline false color_style "" true "" " "
              else ret tt
  | None => ret tt
  end.

(** [__print_matrix_base(...)]; [middle_vertical_line] and
    [middle_horizontal_line] are unused by the body and left out. *)
Definition __print_matrix_base (matrix : list (list string)) (header : labels)
    (indexes : labels) (nan_format : string) (color : option string)
    (color_index color_style : string) (max_len_value len_index : Z)
    (style : option string) (withlvl : bool) (start_line end_line : string)
    (top_line bottom_line : option string) (level_space : Z) : M unit :=
  lvl <- _ConsoleConfig_indentation_lvl ;;
  let indentation := if withlvl then lvl else "" in
  (if labels_truthy header
   then __print_matrix_header header len_index color_index "" withlvl
                              max_len_value level_space
   else ret tt) ;;
  print_border_line top_line color_style ;;
  for_enumerate 0 matrix (fun index_row_id row =>
    index_name <- index_name_of indexes len_index index_row_id ;;
    __print_matrix_row row max_len_value color nan_format color_style
                       color_index end_line start_line index_name indentation) ;;
  print_border_line bottom_line color_style.

(** [len(matrix[0])] *)
Definition len_first_row (matrix : list (list string)) : outcome Z :=
  match matrix with
  | [] => Raise IndexError
  | r :: _ => Ok (Z.of_nat (List.length r))
  end.

(** [__print_matrix_box_style(...)].  The arguments of the call to
    [__print_matrix_base] are evaluated before the call, the
    [new_line()] of [bottom_line] among them. *)
Definition __print_matrix_box_style (matrix : list (list string))
    (header indexes : labels) (nan_format : string) (color : option string)
    (color_index color_style : string) (max_len_value len_index : Z)
    (style : string) (withlvl : bool) : M unit :=
  n <- lift (len_first_row matrix) ;;
  let div := str_mul "-" (n * max_len_value) ++ str_mul "-" (n * 2) in
  let spaces := str_mul " " (len_index + 3) in
  lvl <- _ConsoleConfig_indentation_lvl ;;
  let indentation := if withlvl then lvl else "" in
  let end_line := if String.eqb style "box" then " | " else "" in
  let top_line := indentation ++ spaces ++ div in
  bottom_line <- (if String.eqb style "box"
                  then ret (Some (indentation ++ spaces ++ div))
                  else new_line ;; ret None) ;;
  __print_matrix_base matrix header indexes nan_format color color_index
    color_style max_len_value len_index (Some style) withlvl " | " end_line
    (Some top_line) bottom_line 3.

(** [__print_matrix_numpy_style(...)] *)
Definition __print_matrix_numpy_style (matrix : list (list string))
    (header indexes : labels) (style nan_format : string)
    (color : option string) (color_index color_style : string)
    (max_len_value len_index : Z) (withlvl : bool) : M unit :=
  lvl <- _ConsoleConfig_indentation_lvl ;;
  let indentation := if withlvl then lvl else "" in
  (match header with
   | LNone => ret tt
   | _ => __print_matrix_header header len_index color_index "   " withlvl
                                max_len_value 3
   end) ;;
  let max_rows := List.length matrix in
  for_enumerate 0 matrix (fun index_row_id row =>
    (if Nat.eqb index_row_id 0
     then println [indentation; "[ "] "" false color_style "" true "" " "
     else println ["  "; indentation] "" false "" "" true "" " ") ;;
    index_name <- index_name_of indexes len_index index_row_id ;;
    __print_matrix_row row max_len_value color nan_format color_style
      color_index
      (if negb (Nat.eqb max_rows (index_row_id + 1)) then " ]" else " ]  ]")
      " [ " index_name indentation).

(** [__print_matrix_without_style(...)] *)
Definition __print_matrix_without_style (matrix : list (list string))
    (header indexes : labels) (nan_format : string) (color : option string)
    (color_index color_style : string) (max_len_value len_index : Z)
    (withlvl : bool) : M unit :=
  __print_matrix_base matrix header indexes nan_format color color_index
    color_style max_len_value len_index None withlvl "" "" (Some "")
    (Some "") 0.

(** The glyph table [Line] of [consoleverse.term], which is not among the
    sources: single-line and double-line horizontal, vertical and corner
    glyphs.  The functions that draw with it take it as a parameter. *)
Record LineGlyphs := mkLine {
  SH : string; SV : string;
  STL : string; STR : string; SBL : string; SBR : string;
  DH : string; DV : string;
  DTL : string; DTR : string; DBL : string; DBR : string
}.

Section WithLine.
Variable Line : LineGlyphs.

(** [__print_matrix_simpleline_style(...)] *)
Definition __print_matrix_simpleline_style (matrix : list (list string))
    (header indexes : labels) (nan_format : string) (color : option string)
    (color_index color_style : string) (max_len_value len_index : Z)
    (style : string) (withlvl : bool) : M unit :=
  n <- lift (len_first_row matrix) ;;
  let div := str_mul (SH Line) (n * max_len_value + n * 2 + 2) in
  let spaces := str_mul " " (len_index + 1) in
  lvl <- _ConsoleConfig_indentation_lvl ;;
  let indentation := if withlvl then lvl else "" in
  __print_matrix_base matrix header indexes nan_format color color_index
    color_style max_len_value len_index (Some style) withlvl
    (" " ++ SV Line ++ " ") (" " ++ SV Line ++ " ")
    (Some (indentation ++ spaces ++ STL Line ++ div ++ STR Line))
    (Some (indentation ++ spaces ++ SBL Line ++ div ++ SBR Line)) 3.

(** [__print_matrix_doubleline_style(...)] *)
Definition __print_matrix_doubleline_style (matrix : list (list string))
    (header indexes : labels) (nan_format : string) (color : option string)
    (color_index color_style : string) (max_len_value len_index : Z)
    (style : string) (withlvl : bool) : M unit :=
  n <- lift (len_first_row matrix) ;;
  let div := str_mul (DH Line) (n * max_len_value + n * 2 + 2) in
  let spaces := str_mul " " (len_index + 1) in
  lvl <- _ConsoleConfig_indentation_lvl ;;
  let indentation := if withlvl then lvl else "" in
  __print_matrix_base matrix header indexes nan_format color color_index
    color_style max_len_value len_index (Some style) withlvl
    (" " ++ DV Line ++ " ") (" " ++ DV Line ++ " ")
    (Some (indentation ++ spaces ++ DTL Line ++ div ++ DTR Line))
    (Some (indentation ++ spaces ++ DBL Line ++ div ++ DBR Line)) 3.

(** [print_matrix(matrix, header, indexes, style, nan_format, color,
    color_index, color_style, withlvl)]; a [style] of [None] is [None]
    here. *)
Definition print_matrix (matrix : list (list string)) (header indexes : labels)
    (style : option string) (nan_format : string) (color : option string)
    (color_index color_style : string) (withlvl : bool) : M unit :=
  let indexes :=
    if labels_eq_str indexes "all"
    then LList (range_strs (List.length matrix))
    else indexes in
  header <-
    (if labels_eq_str header "all"
     then n <- lift (len_first_row matrix) ;;
          ret (LList (range_strs (Z.to_nat n)))
     else ret header) ;;
  let max_len_value := __max_len_value (map Row matrix) nan_format in
  let max_len_value :=
    Z.max max_len_value
          (__max_len_value (map Atom (labels_iter header)) nan_format) in
  let len_index :=
    match indexes with
    | LList l => __max_len_value (map Atom l) nan_format
    | _ => 0
    end in
  match style with
  | None =>
      __print_matrix_without_style matrix header indexes nan_format color
        color_index color_style max_len_value len_index withlvl
  | Some style =>
      if str_in style ["box"; "semibox"] then
        __print_matrix_box_style matrix header indexes nan_format color
          color_index color_style max_len_value len_index style withlvl
      else if str_in style ["numpy"; "np"] then
        __print_matrix_numpy_style matrix header indexes style nan_format
          color color_index color_style max_len_value len_index withlvl
      else if str_in style ["simpleline"; "sl"; "line"] then
        __print_matrix_simpleline_style matrix header indexes nan_format
          color color_index color_style max_len_value len_index style withlvl
      else if str_in style ["doubleline"; "dl"] then
        __print_matrix_doubleline_style matrix header indexes nan_format
          color color_index color_style max_len_value len_index style withlvl
      else
        raise (ErrorNotDefinedStyle ("Unknown style: " ++ style))
  end.

(** [max([len(line) for line in lines])] on a list that is never empty. *)
Definition max_len_lines (lines : list string) : Z :=
  match lines with
  | [] => 0
  | l :: rest => fold_left (fun m x => Z.max m (len x)) rest (len l)
  end.

(** [textbox(message.., withlvl, color, bg_color, reset_all_colors, style,
    sep, border, border_color, border_style)] *)
Definition textbox (message : list string) (withlvl : bool)
    (color bg_color : string) (reset_all_colors : bool) (style sep : string)
    (border border_color border_style : string) : M unit :=
  let message := __to_string message sep in
  let lines := split_lines message in
  let max_len := max_len_lines lines in
  frame <-
    (if String.eqb border "simpleline" then
       ret (STL Line ++ str_mul (SH Line) (max_len + 2) ++ STR Line,
            SBL Line ++ str_mul (SH Line) (max_len + 2) ++ SBR Line,
            SV Line ++ str_mul " " (max_len + 2) ++ SV Line,
            SV Line)
     else if String.eqb border "doubleline" then
       ret (DTL Line ++ str_mul (DH Line) (max_len + 2) ++ DTR Line,
            DBL Line ++ str_mul (DH Line) (max_len + 2) ++ DBR Line,
            DV Line ++ str_mul " " (max_len + 2) ++ DV Line,
            DV Line)
     else raise (ErrorNotDefinedStyle ("Unknown border style: " ++ border))) ;;
  let '(top, bottom, vertical_blank, vertical) := frame in
  let pln := fun s =>
    println [s] newline withlvl border_color "" true border_style " " in
  pln top ;;
  pln vertical_blank ;;
  for_each lines (fun line =>
    println [vertical] "" withlvl border_color "" true border_style " " ;;
    println [" " ++ line ++ " "] "" false color bg_color reset_all_colors
            style " " ;;
    println [str_mul " " (max_len - len line)] "" false "" "" true "" " " ;;
    println [vertical] newline false border_color "" true border_style " ") ;;
  pln vertical_blank ;;
  pln bottom.
End WithLine.

(** *** Progress bar *)

(** The keyword arguments [progress_bar] hands on to [println], the ones
    left out of the call filled in with [println]'s defaults. *)
Record println_kwargs := mk_kwargs {
  kw_endl : string;
  kw_withlvl : bool;
  kw_color : string;
  kw_bg_color : string;
  kw_reset_all_colors : bool;
  kw_style : string;
  kw_sep : string
}.

Definition no_kwargs : println_kwargs :=
  mk_kwargs newline true "" "" true "" " ".

(** [println(message, **kwargs)] *)
Definition println_kw (message : string) (kw : println_kwargs) : M unit :=
  println [message] (kw_endl kw) (kw_withlvl kw) (kw_color kw) (kw_bg_color kw)
          (kw_reset_all_colors kw) (kw_style kw) (kw_sep kw).

(** [int(x)] on an exact rational: truncation towards zero. *)
Definition int_of_Q (x : Q) : Z := Z.quot (Qnum x) (Zpos (Qden x)).

Definition Qlt_bool (a b : Q) : bool := negb (Qle_bool b a).

(** [x < 0].  A float is compared with the [int] by value, which for [0]
    is the comparison with [0.0]; a comparison with NaN is false. *)
Definition lt_0 (x : number) : bool :=
  match x with
  | Exact q => Qlt_bool q 0
  | Float f => SFltb f float_0
  end.

(** [x > 1] *)
Definition gt_1 (x : number) : bool :=
  match x with
  | Exact q => Qlt_bool 1 q
  | Float f => SFltb float_1 f
  end.

(** [x * n] for an [int] [n]. *)
Definition mul_int (x : number) (n : Z) : outcome number :=
  match x with
  | Exact q => Ok (Exact (q * inject_Z n))
  | Float f =>
      match float_of_int n with
      | Ok g => Ok (Float (SFmul prec emax f g))
      | Raise e => Raise e
      end
  end.

(** [int(x)] *)
Definition int_of (x : number) : outcome Z :=
  match x with
  | Exact q => Ok (int_of_Q q)
  | Float f => int_of_float f
  end.

(** [progress_bar(progress, width, bar, start_bar, end_bar, spacing, pct,
    **kwargs)] *)
Definition progress_bar (progress : number) (width : Z)
    (bar start_bar end_bar spacing : string) (pct : bool)
    (kwargs : println_kwargs) : M unit :=
  if orb (lt_0 progress) (gt_1 progress) then
    raise (ValueError "The progress must be between 0 and 1")
  else if width <? 0 then
    raise (ValueError "The width must be greater than 0")
  else if negb (len bar =? 1) then
    raise (ValueError "The bar must be a single character")
  else if negb (len start_bar =? 1) then
    raise (ValueError "The start_bar must be a single character")
  else if negb (len end_bar =? 1) then
    raise (ValueError "The end_bar must be a single character")
  else
    scaled <- lift (mul_int progress width) ;;
    progress_bar <- lift (int_of scaled) ;;
    pct_bar <-
      (if pct
       then percent <- lift (mul_int progress 100) ;;
            n <- lift (int_of percent) ;;
            ret (" (" ++ str_of_int n ++ "%)")
       else ret "") ;;
    println_kw (start_bar ++ str_mul bar progress_bar
                  ++ str_mul spacing (width - progress_bar) ++ end_bar ++ pct_bar)
               kwargs.

(** *** The remaining operations of the module *)

(** [reset_colors()] *)
Definition reset_colors : M unit := print reset "".

(** The [message_block] argument of [block]: a [str], or a [dict] that has
    a title for every language code. *)
Inductive message_block :=
| TitleStr (s : string)
| TitleDict (d : Lang -> string).

(** [block(message_block, text_color, bg_color)(func)(args..)]: the call of
    the wrapped function, [func] standing for the call of the decorated
    function on its arguments. *)
Definition block {A} (message_block : message_block)
    (text_color bg_color : string) (func : M A) : M A :=
  message <- match message_block with
             | TitleStr s => ret s
             | TitleDict d => l <- read language ;; ret (d l)
             end ;;
  start_block [message] text_color bg_color ;;
  new_line ;;
  value <- func ;;
  new_line ;;
  end_block [message] text_color bg_color "" ;;
  ret value.

End console.

(* ------------------------------------------------------------------ *)
(** ** __init__.py: the Legacy Facade                                  *)
(* ------------------------------------------------------------------ *)

(** The functions and constants that [__init__.py] takes from
    [consoleverse.term] are not among the sources. *)
Module term.

(** Modelled from the spec: the name-to-sequence lookup of the colour
    table, missing from the sources.  Case-insensitive; the empty name
    stands for no colour and gives the empty sequence; any other name
    outside the table fails with the unknown-colour console error. *)
Definition get_color (name : string) : outcome string :=
  if String.eqb name "" then Ok ""
  else match dict_get ColorText.COLORS (upper name) with
       | Some v => Ok v
       | None => Raise (ErrorNotDefinedColor name)
       end.

(** Modelled from the spec: the lookup of the background table, missing
    from the sources; as [get_color], on the eight background names. *)
Definition get_background (name : string) : outcome string :=
  if String.eqb name "" then Ok ""
  else match dict_get ColorBackground.BACKGROUNDS (upper name) with
       | Some v => Ok v
       | None => Raise (ErrorNotDefinedColor name)
       end.

(** Modelled from the spec: the lookup of the style table, missing from
    the sources; as [get_color], on the five style names, failing with
    the unknown-style console error. *)
Definition get_style (name : string) : outcome string :=
  if String.eqb name "" then Ok ""
  else match dict_get ColorStyle.STYLES (upper name) with
       | Some v => Ok v
       | None => Raise (ErrorNotDefinedStyle name)
       end.

(** Modelled from the spec: [reset_colors()], missing from the sources,
    returns the reset sequence shared by the three tables. *)
Definition reset_colors : string := END_FORMAT_COLOR.

(** Modelled from the spec: the colour-name constants, missing from the
    sources, are the canonical upper-case names. *)
Definition BLUE : string := "BLUE".
Definition RED : string := "RED".

End term.

Module consoleverse.
Import term.

Definition __START_LANGS (l : Lang) : string :=
  match l with en => "START" | es => "INICIA" end.

Definition __END_LANGS (l : Lang) : string :=
  match l with en => "END" | es => "TERMINA" end.

(** [clear_screen()] *)
Definition clear_screen : M unit :=
  sys <- read platform_system ;;
  os_system (if negb (String.eqb sys "Windows") then "clear" else "cls").

(** [start_console(clear, indentation_type, indentation_size,
    autoreset_colors)] *)
Definition start_console (clear : bool) (indentation_type : string)
    (indentation_size : Z) (autoreset_colors : bool) : M unit :=
  modify (fun w =>
    set_facade (mkConsoleConfig indentation_type "" indentation_size
                  (is_start_console (facade w)) autoreset_colors) w) ;;
  (if clear then clear_screen else ret tt) ;;
  modify (fun w => set_facade (with_is_start_console true (facade w)) w).

(** [__start_console()] *)
Definition __start_console : M unit :=
  started <- read (fun w => is_start_console (facade w)) ;;
  if negb started then start_console false " " 2 true else ret tt.

(** [add_lvl()] *)
Definition add_lvl : M unit :=
  modify (fun w =>
    let c := facade w in
    set_facade (with_indentation_lvl
                  (indentation_lvl c
                     ++ str_mul (indentation_type c) (indentantion_size c))
                  c) w).

(** [del_lvl()] *)
Definition del_lvl : M unit :=
  modify (fun w =>
    let c := facade w in
    set_facade (with_indentation_lvl
                  (slice_to (indentation_lvl c) (- indentantion_size c))
                  c) w).

(** [_colorize(text, color, bg_color, style, reset_console_colors)]; the
    last argument is the string that [println] passes, tested for
    emptiness. *)
Definition _colorize (text color bg_color style reset_console_colors : string)
    : outcome string :=
  match get_color color with
  | Raise e => Raise e
  | Ok c =>
    match get_background bg_color with
    | Raise e => Raise e
    | Ok b =>
      match get_style style with
      | Raise e => Raise e
      | Ok s =>
        let colorized_text := c ++ b ++ s ++ text in
        Ok (if negb (String.eqb reset_console_colors "")
            then colorized_text ++ reset_colors
            else colorized_text)
      end
    end
  end.

Definition __to_string (values : list string) (sep : string) : string :=
  join sep values.

(** [println(message.., endl, withlvl, color, bg_color, reset_all_colors,
    style, sep)] *)
Definition println (message : list string) (endl : string) (withlvl : bool)
    (color bg_color : string) (reset_all_colors : bool) (style sep : string)
    : M unit :=
  __start_console ;;
  let message := __to_string message sep in
  lvl <- read (fun w => indentation_lvl (facade w)) ;;
  let message := if withlvl then lvl ++ message else message in
  autoreset <- read (fun w => autoreset_colors (facade w)) ;;
  let reset_console_colors :=
    if orb reset_all_colors autoreset then reset_colors else "" in
  colorized_text <-
    lift (_colorize message color bg_color style reset_console_colors) ;;
  print colorized_text endl.

(** [new_line()] *)
Definition new_line : M unit := println [""] newline false "" "" true "" " ".

(** [start_block(message.., color, bg_color)] *)
Definition start_block (message : list string) (color bg_color : string)
    : M unit :=
  let message := __to_string message " " in
  l <- read language ;;
  println [__START_LANGS l ++ " " ++ upper message]
          newline true color bg_color true "" " " ;;
  add_lvl.

(** [end_block(message.., color, bg_color, style)] *)
Definition end_block (message : list string) (color bg_color style : string)
    : M unit :=
  let message := __to_string message " " in
  del_lvl ;;
  l <- read language ;;
  println [__END_LANGS l ++ " " ++ upper message]
          newline true color bg_color true style " " ;;
  new_line.

(** [line(size, style, color, bg_color, style_text)] *)
Definition line (size : Z) (style color bg_color style_text : string)
    : M unit :=
  let line := str_mul style size in
  let line := if String.eqb (slice_to line (-1)) " "
              then slice_to line (-1) else line in
  println [line] newline true color bg_color true style_text " " ;;
  new_line.

(** [warning(message.., color, bg_color, style)] *)
Definition warning (message : list string) (color bg_color style : string)
    : M unit :=
  let message := __to_string message " " in
  println ["warning: " ++ message] newline true color bg_color true style " ".

(** [error(message.., color, bg_color, style)] *)
Definition error (message : list string) (color bg_color style : string)
    : M unit :=
  let message := __to_string message " " in
  println ["error: >>> " ++ message ++ " <<<"]
          newline true color bg_color true style " ".

End consoleverse.

(** Running a computation: the outcome, and the text added to standard
    output. *)
Definition result_of {A} (m : M A) (w : World) : outcome A := fst (m w).
Definition world_after {A} (m : M A) (w : World) : World := snd (m w).

(** The escape sequence a name stands for in a table, or nothing when the
    table does not have the name. *)
Definition code_or_empty (d : list (string * string)) (name : string) : string :=
  match dict_get d (upper name) with
  | Some v => v
  | None => ""
  end.

(** A text between the sequences of its colour, background and style and,
    on request, the reset sequence. *)
Definition colorized (text color bg_color style : string) (with_reset : bool)
    : string :=
  code_or_empty ColorText.COLORS color
  ++ code_or_empty ColorBackground.BACKGROUNDS bg_color
  ++ code_or_empty ColorStyle.STYLES style
  ++ text ++ (if with_reset then reset else "").

(** A computation that returns normally from every world. *)
Definition total (m : M unit) : Prop :=
  forall w, exists w', m w = (Ok tt, w').

(** Calls of [start_block] and [end_block] of the Console Engine. *)
Inductive block_call :=
| StartBlock (message : list string) (color bg_color : string)
| EndBlock (message : list string) (color bg_color style : string).

Definition run_call (c : block_call) : M unit :=
  match c with
  | StartBlock m c b => console.start_block m c b
  | EndBlock m c b s => console.end_block m c b s
  end.

(** Sequences of calls in which every [start_block] is closed by an
    [end_block] at its own depth. *)
Inductive nested : list block_call -> Prop :=
| nested_nil : nested []
| nested_pair : forall m1 c1 b1 m2 c2 b2 s2 inner,
    nested inner ->
    nested (StartBlock m1 c1 b1 :: inner ++ [EndBlock m2 c2 b2 s2])
| nested_seq : forall a b, nested a -> nested b -> nested (a ++ b).

(** The indentation of a configuration can be taken back level by level:
    the size is positive, or nothing has been accumulated. *)
Definition levels_removable (c : _ConsoleConfig) : Prop :=
  0 < _indentantion_size c \/ _indentation_lvl c = "".

(** The world after [start_block] on an initialised configuration. *)
Definition after_start_block (message : list string) (color bg_color : string)
    (w : World) : World :=
  let c := engine w in
  set_engine
    (with__indentation_lvl
       (_indentation_lvl c ++ str_mul (_indentation_type c) (_indentantion_size c))
       c)
    (set_stdout
       (stdout w
        ++ colorized (_indentation_lvl c
                      ++ console.__START_LANGS (language w) ++ " "
                      ++ upper (join " " message))
                     color bg_color "" true
        ++ newline) w).

(** The world after [end_block] on an initialised configuration. *)
Definition after_end_block (message : list string) (color bg_color style : string)
    (w : World) : World :=
  let c := engine w in
  let lvl := slice_to (_indentation_lvl c) (- _indentantion_size c) in
  set_stdout
    (stdout w
     ++ (colorized (lvl ++ console.__END_LANGS (language w) ++ " "
                    ++ upper (join " " message))
                   color bg_color style true
         ++ newline)
     ++ reset ++ newline)
    (set_engine (with__indentation_lvl lvl c) w).

(** What the block operations need of a configuration. *)
Definition block_ready (c : _ConsoleConfig) : Prop :=
  _is_init c = true /\
  String.length (_indentation_type c) = 1%nat /\
  levels_removable c.

(** The style names that [print_matrix] dispatches on. *)
Definition matrix_styles : list string :=
  ["box"; "semibox"; "numpy"; "np"; "simpleline"; "sl"; "line"; "doubleline"; "dl"].

(** The pieces of the rendering of [[1, 2], [3, 4]] with numbered header
    and indexes and no colours in a fresh process: a blank line, the header,
    the divider, and a row closed by [e]. *)
Definition m22 : list (list string) := [["1"; "2"]; ["3"; "4"]].
Definition m22_blank : string := reset ++ newline.
Definition m22_header : string :=
  "    " ++ reset ++ " 0 " ++ reset ++ " 1 " ++ reset ++ reset ++ newline.
Definition m22_divider : string := "    ------" ++ reset ++ newline.
Definition m22_row (index a b e : string) : string :=
  reset ++ index ++ reset ++ " | " ++ reset ++ " " ++ a ++ " " ++ reset
  ++ " " ++ b ++ " " ++ reset ++ e ++ reset ++ newline.

(** The string [s] without its last [n] characters. *)
Definition remove_last (n : Z) (s : string) : string :=
  substring 0 (Z.to_nat (len s - n)) s.

(** A configuration with two open levels, and a facade with one short one. *)
Definition world_two_levels : World :=
  mkWorld (mk_ConsoleConfig " " "    " 2 true true)
          (mkConsoleConfig "." ".." 3 true true)
          "" [] en "posix" "Linux".

(** A number that has a value: an exact one, or a float that is a zero
    or finite. *)
Definition is_finite (x : number) : bool :=
  match x with
  | Exact _ => true
  | Float (S754_zero _) | Float (S754_finite _ _ _) => true
  | Float _ => false
  end.

(** The rational [(-1)^s * m * 2^e] a finite float stands for. *)
Definition Q_of_float (f : spec_float) : Q :=
  match f with
  | S754_finite s m e =>
      let n := if s then Zneg m else Zpos m in
      match e with
      | Z0 => inject_Z n
      | Zpos p => inject_Z (n * Zpos (2 ^ p))
      | Zneg p => n # 2 ^ p
      end
  | _ => 0
  end.

(** The value of a number that has one. *)
Definition value (x : number) : Q :=
  match x with
  | Exact q => q
  | Float f => Q_of_float f
  end.

(** A float in the form every Python [float] has: a mantissa of at most
    53 bits, with the least exponent that allows it, within the range of
    binary64. *)
Definition binary64 (x : number) : Prop :=
  match x with
  | Exact _ => True
  | Float f => valid_binary prec emax f = true
  end.


(** The floats 0.5 and 0.7 (the float nearest to seven tenths). *)
Definition float_half : spec_float := S754_finite false 4503599627370496 (-53).

(* ------------------------------------------------------------------ *)
(** ** Vocabulary of the further properties                            *)
(* ------------------------------------------------------------------ *)

(** A computation that leaves the observation [f] of the world as it found
    it, whether it returns or raises. *)
Definition keeps {A B} (f : World -> A) (m : M B) : Prop :=
  forall w, f (world_after m w) = f w.

(** A computation that, on an initialised Console Engine, returns normally
    and does nothing but add text to standard output. *)
Definition appends_only (m : M unit) : Prop :=
  forall w, _is_init (engine w) = true ->
  exists text, m w = (Ok tt, set_stdout (stdout w ++ text) w).

(** Calls of [add_lvl] and [del_lvl] of the Console Engine. *)
Inductive lvl_op := AddLvl | DelLvl.

Definition run_lvl_op (o : lvl_op) : M unit :=
  match o with
  | AddLvl => console.add_lvl
  | DelLvl => console.del_lvl
  end.

(** The nesting depth after a sequence of calls: one more for [add_lvl],
    one less for [del_lvl], never below zero. *)
Fixpoint depth_after (ops : list lvl_op) (d : nat) : nat :=
  match ops with
  | [] => d
  | AddLvl :: rest => depth_after rest (S d)
  | DelLvl :: rest => depth_after rest (Nat.pred d)
  end.

(** The text [__max_len_value] measures for a cell. *)
Definition measured_text (nan_format cell : string) : string :=
  if str_in cell ["None"; "nan"; "NaN"] then nan_format else cell.


(** The title [block] prints for its [message_block]. *)
Definition title_of (mb : console.message_block) (w : World) : string :=
  match mb with
  | console.TitleStr s => s
  | console.TitleDict d => d (language w)
  end.


(** An observation of the world that does not look at the Legacy Facade's
    configuration nor at standard output. *)
Definition facade_blind {A} (f : World -> A) : Prop :=
  (forall c w, f (set_facade c w) = f w) /\
  (forall s w, f (set_stdout s w) = f w).


(** The style names of [print_matrix] that draw a frame. *)
Definition framed_styles : list string :=
  ["box"; "semibox"; "simpleline"; "sl"; "line"; "doubleline"; "dl"].

(** The index labels reach [n] rows: there are none to print, or the list
    has at least [n] of them. *)
Definition labels_cover (indexes : console.labels) (n : nat) : Prop :=
  indexes = console.LNone
  \/ exists idx, indexes = console.LList idx /\ (n <= Datatypes.length idx)%nat.

(** An initialised engine whose indentation unit has two characters. *)
Definition world_wide_unit : World :=
  mkWorld (mk_ConsoleConfig "ab" "" 2 true true) default_facade
          "" [] en "posix" "Linux".

(* ------------------------------------------------------------------ *)
(** ** Lemmas on the string primitives                                 *)
(* ------------------------------------------------------------------ *)

Lemma length_append (a b : string) :
  String.length (a ++ b) = (String.length a + String.length b)%nat.
Proof. induction a as [|c a IH]; simpl; [reflexivity | now rewrite IH]. Qed.

Lemma append_empty_r (s : string) : s ++ "" = s.
Proof. induction s as [|c s IH]; simpl; [reflexivity | now rewrite IH]. Qed.

Lemma append_assoc (a b c : string) : (a ++ b) ++ c = a ++ (b ++ c).
Proof. induction a as [|x a IH]; simpl; [reflexivity | now rewrite IH]. Qed.

Lemma length_str_rep (s : string) (n : nat) :
  String.length (str_rep s n) = (n * String.length s)%nat.
Proof.
  induction n as [|n IH]; simpl; [reflexivity|].
  now rewrite length_append, IH.
Qed.

Lemma substring_0_0 (s : string) : substring 0 0 s = "".
Proof. destruct s; reflexivity. Qed.

Lemma substring_0_append (a b : string) :
  substring 0 (String.length a) (a ++ b) = a.
Proof.
  induction a as [|c a IH]; simpl.
  - apply substring_0_0.
  - now rewrite IH.
Qed.

Lemma len_nonneg (s : string) : 0 <= len s.
Proof. unfold len; lia. Qed.

Lemma slice_to_neg (s : string) (n : Z) :
  1 <= n -> slice_to s (- n) = remove_last (Z.min n (len s)) s.
Proof.
  intros Hn. unfold slice_to, slice_stop, remove_last.
  pose proof (len_nonneg s).
  destruct (Z.ltb_spec (- n) 0); [|lia].
  f_equal. lia.
Qed.

Lemma remove_last_all (s : string) (n : Z) :
  len s <= n -> remove_last (Z.min n (len s)) s = "".
Proof.
  intros H. unfold remove_last.
  replace (Z.to_nat (len s - Z.min n (len s))) with O by lia.
  apply substring_0_0.
Qed.

(** Removing a level that was just added gives the indentation back. *)
Lemma slice_to_added_level (lvl unit : string) (size : Z) :
  String.length unit = 1%nat ->
  0 < size \/ lvl = "" ->
  slice_to (lvl ++ str_mul unit size) (- size) = lvl.
Proof.
  intros Hu Hv. unfold slice_to, slice_stop, str_mul, len.
  rewrite length_append, length_str_rep, Hu.
  destruct (Z.ltb_spec (- size) 0) as [Hneg|Hpos].
  - replace (Z.to_nat (Z.max 0 (Z.of_nat (String.length lvl + Z.to_nat size * 1) + - size)))
      with (String.length lvl) by lia.
    apply substring_0_append.
  - destruct Hv as [Hv|Hv]; [lia|]. subst lvl.
    replace (Z.to_nat size) with O by lia. simpl.
    now destruct (Z.to_nat _).
Qed.

(* ------------------------------------------------------------------ *)
(** ** Indentation                                                     *)
(* ------------------------------------------------------------------ *)

(** C10: with an indentation size of at least one, [del_lvl] of the Console
    Engine and of the Legacy Facade never raises; it replaces the
    indentation by the previous string without its last
    [min(size, length)] characters and leaves everything else alone; on an
    indentation of at most [size] characters the result is the empty
    string. *)
Theorem del_lvl_total_truncation (w : World) :
  1 <= _indentantion_size (engine w) ->
  1 <= indentantion_size (facade w) ->
  (console.del_lvl w =
     (Ok tt,
      set_engine
        (with__indentation_lvl
           (remove_last (Z.min (_indentantion_size (engine w))
                               (len (_indentation_lvl (engine w))))
                        (_indentation_lvl (engine w)))
           (engine w)) w)
   /\ (len (_indentation_lvl (engine w)) <= _indentantion_size (engine w) ->
       _indentation_lvl (engine (world_after console.del_lvl w)) = ""))
  /\
  (consoleverse.del_lvl w =
     (Ok tt,
      set_facade
        (with_indentation_lvl
           (remove_last (Z.min (indentantion_size (facade w))
                               (len (indentation_lvl (facade w))))
                        (indentation_lvl (facade w)))
           (facade w)) w)
   /\ (len (indentation_lvl (facade w)) <= indentantion_size (facade w) ->
       indentation_lvl (facade (world_after consoleverse.del_lvl w)) = "")).
Proof.
  intros He Hf.
  unfold world_after, console.del_lvl, console._ConsoleConfig_del_indentation_lvl,
    consoleverse.del_lvl, modify; simpl.
  rewrite (slice_to_neg _ He), (slice_to_neg _ Hf).
  repeat split; intros; now apply remove_last_all.
Qed.

Lemma del_lvl_total_truncation_witness :
  1 <= _indentantion_size (engine world_two_levels) /\
  1 <= indentantion_size (facade world_two_levels) /\
  _indentation_lvl (engine (world_after console.del_lvl world_two_levels)) = "  " /\
  indentation_lvl (facade (world_after consoleverse.del_lvl world_two_levels)) = "".
Proof.
  assert (He : 1 <= _indentantion_size (engine world_two_levels)) by (simpl; lia).
  assert (Hf : 1 <= indentantion_size (facade world_two_levels)) by (simpl; lia).
  destruct (del_lvl_total_truncation world_two_levels He Hf) as [[E1 _] [_ E2]].
  split; [exact He|]. split; [exact Hf|]. split.
  - unfold world_after. rewrite E1. reflexivity.
  - apply E2. simpl. unfold len. simpl. lia.
Defined.

(* ------------------------------------------------------------------ *)
(** ** Initialisation                                                  *)
(* ------------------------------------------------------------------ *)

(** C9: [init] with [clear=True] runs the screen-clear command exactly twice,
    once inside [_ConsoleConfig.init] and once in [init] itself; with
    [clear=False] it runs it not at all; the configuration is the same in
    both cases. *)
Theorem init_clear_runs_clear_screen_twice
    (w : World) (itype : string) (isize : Z) (autoreset : bool) :
  let cmd := if String.eqb (os_name w) "nt" then "cls" else "clear" in
  let w1 := world_after (console.init true itype isize autoreset) w in
  let w0 := world_after (console.init false itype isize autoreset) w in
  result_of (console.init true itype isize autoreset) w = Ok tt /\
  result_of (console.init false itype isize autoreset) w = Ok tt /\
  os_calls (world_after (console._ConsoleConfig_init true itype isize autoreset) w)
    = (os_calls w ++ [cmd])%list /\
  os_calls w1 = (os_calls w ++ [cmd; cmd])%list /\
  os_calls w0 = os_calls w /\
  engine w1 = engine w0 /\
  engine w1 = mk_ConsoleConfig itype "" isize true autoreset.
Proof.
  unfold result_of, world_after, console.init, console._ConsoleConfig_init,
    console.clear_screen, os_system, modify, read, bind, ret; simpl.
  rewrite <- app_assoc. simpl.
  repeat split; reflexivity.
Qed.

(* ------------------------------------------------------------------ *)
(** ** Horizontal rules                                                *)
(* ------------------------------------------------------------------ *)

(** The test of [line] holds exactly for a built string of two characters
    that starts with a space; such a string loses its last character,
    whatever it is. *)
Lemma line_trim_test (c : ascii) (s : string) :
  String.eqb (slice_to (String c s) (-1)) " " = true <->
  c = " "%char /\ String.length s = 1%nat.
Proof.
  unfold slice_to, slice_stop, len.
  change (-1 <? 0) with true. cbv iota.
  replace (Z.to_nat (Z.max 0 (Z.of_nat (String.length (String c s)) + -1)))
    with (String.length s) by (simpl String.length; lia).
  rewrite String.eqb_eq.
  destruct s as [|d s]; simpl.
  - split; [discriminate | intros [_ H]; discriminate].
  - destruct s as [|e s]; simpl.
    + split; [intros H; inversion H; auto | intros [-> _]; reflexivity].
    + split; [|intros [_ H]; discriminate].
      destruct s; simpl; discriminate.
Qed.

Lemma line_trim_test_fails (line : string) :
  String.length line <> 2%nat ->
  String.eqb (slice_to line (-1)) " " = false.
Proof.
  intros H. destruct line as [|c s]; [reflexivity|].
  destruct (String.eqb (slice_to (String c s) (-1)) " ") eqn:E; [|reflexivity].
  apply line_trim_test in E. destruct E as [_ E].
  simpl in H. rewrite E in H. contradiction.
Qed.

(** C5: whenever the built string [style * size] is not exactly two
    characters long, [line] of the Console Engine and of the Legacy Facade
    prints it as it is, a final space included, and then the blank line:
    the final space is not removed. *)
Theorem line_keeps_trailing_space
    (size : Z) (style color bg_color style_text : string) (w : World) :
  String.length (str_mul style size) <> 2%nat ->
  console.line size style color bg_color style_text w
  = (console.println [str_mul style size] newline true color bg_color true
                     style_text " " ;;
     console.new_line) w
  /\ consoleverse.line size style color bg_color style_text w
     = (consoleverse.println [str_mul style size] newline true color bg_color
                             true style_text " " ;;
        consoleverse.new_line) w.
Proof.
  intros H. unfold console.line, consoleverse.line.
  rewrite (line_trim_test_fails _ H). split; reflexivity.
Qed.

Lemma line_keeps_trailing_space_witness :
  String.length (str_mul "-- " 30) <> 2%nat /\
  stdout (world_after (console.line 30 "-- " "" "" "") fresh_world)
  = str_mul "-- " 30 ++ reset ++ newline ++ reset ++ newline /\
  stdout (world_after (consoleverse.line 30 "-- " "" "" "") fresh_world)
  = str_mul "-- " 30 ++ reset ++ newline ++ reset ++ newline /\
  str_mul "-- " 30 <> slice_to (str_mul "-- " 30) (-1).
Proof.
  assert (H : String.length (str_mul "-- " 30) <> 2%nat)
    by (vm_compute; discriminate).
  split; [exact H|].
  destruct (line_keeps_trailing_space 30 "-- " "" "" "" fresh_world H) as [E1 E2].
  unfold world_after. rewrite E1, E2.
  split; [vm_compute; reflexivity|].
  split; [vm_compute; reflexivity|].
  apply String.eqb_neq. vm_compute. reflexivity.
Defined.

(* ------------------------------------------------------------------ *)
(** ** The reset sequence                                              *)
(* ------------------------------------------------------------------ *)

(** What [println] of the Legacy Facade appends: the reset sequence exactly
    when [reset_all_colors] or the configured [autoreset_colors] holds. *)
Lemma legacy_println_reset (w : World) (message : list string)
    (endl : string) (withlvl reset_all_colors : bool) (sep : string) :
  is_start_console (facade w) = true ->
  stdout (world_after
            (consoleverse.println message endl withlvl "" "" reset_all_colors "" sep) w)
  = stdout w
    ++ ((if withlvl then indentation_lvl (facade w) ++ join sep message
         else join sep message)
        ++ (if orb reset_all_colors (autoreset_colors (facade w)) then reset else ""))
    ++ endl.
Proof.
  intros Hs.
  unfold world_after, consoleverse.println, consoleverse.__start_console,
    consoleverse.__to_string, read, bind, lift, print, modify; simpl.
  rewrite Hs. simpl.
  unfold consoleverse._colorize, term.get_color, term.get_background,
    term.get_style; simpl.
  destruct (orb reset_all_colors (autoreset_colors (facade w))); simpl.
  - reflexivity.
  - now rewrite append_empty_r.
Qed.

(* ------------------------------------------------------------------ *)
(** ** The colorization pipeline and [println]                         *)
(* ------------------------------------------------------------------ *)

Lemma guarded_lookup (d : list (string * string)) (k : string) (e : exn) :
  (if dict_has d k
   then match dict_get d k with Some v => Ok v | None => Raise e end
   else Ok "")
  = Ok (match dict_get d k with Some v => v | None => "" end).
Proof. unfold dict_has. now destruct (dict_get d k). Qed.

(** [_colorize] of the Console Engine returns for every argument. *)
Lemma _colorize_total (text color bg_color style : string) (r : bool) :
  console._colorize text color bg_color style r
  = Ok (colorized text color bg_color style r).
Proof.
  unfold console._colorize, colorized, code_or_empty,
    ColorText.contains, ColorText.getitem,
    ColorBackground.contains, ColorBackground.getitem,
    StyleText.contains, StyleText.getitem,
    ColorStyle.contains, ColorStyle.getitem.
  rewrite !guarded_lookup.
  destruct r.
  - now rewrite !append_assoc.
  - now rewrite append_empty_r.
Qed.


(** The effect of [println]: lazy initialisation, then one write. *)
Lemma println_effect (message : list string) (endl : string) (withlvl : bool)
    (color bg_color : string) (r : bool) (style sep : string) (w : World) :
  console.println message endl withlvl color bg_color r style sep w =
    (Ok tt,
     let w1 := world_after console._ConsoleConfig__init w in
     set_stdout
       (stdout w1
        ++ colorized (if withlvl
                      then _indentation_lvl (engine w1) ++ join sep message
                      else join sep message)
                     color bg_color style r
        ++ endl) w1).
Proof.
  unfold console.println, console.println_any, console.__to_string,
    console._ConsoleConfig_indentation_lvl, world_after, bind, lift, read, print,
    modify.
  destruct (console._ConsoleConfig__init w) as [o w1] eqn:E.
  unfold console._ConsoleConfig__init, modify in E.
  inversion E; subst o. simpl.
  rewrite _colorize_total. reflexivity.
Qed.

Lemma _init_when_initialized (w : World) :
  _is_init (engine w) = true ->
  world_after console._ConsoleConfig__init w = w.
Proof.
  intros H. unfold world_after, console._ConsoleConfig__init, modify. simpl.
  now rewrite H.
Qed.

Lemma stdout_after_init (w : World) :
  stdout (world_after console._ConsoleConfig__init w) = stdout w.
Proof.
  unfold world_after, console._ConsoleConfig__init, modify. simpl.
  now destruct (negb (_is_init (engine w))).
Qed.

Lemma total_println message endl withlvl color bg_color r style sep :
  total (console.println message endl withlvl color bg_color r style sep).
Proof. intros w. rewrite println_effect. eauto. Qed.

Lemma total_ret : total (ret tt).
Proof. intros w. unfold ret. eauto. Qed.

Lemma total_seq (a b : M unit) : total a -> total b -> total (a ;; b).
Proof.
  intros Ha Hb w. unfold bind.
  destruct (Ha w) as [w1 ->]. apply Hb.
Qed.

Lemma total_for_each {A} (l : list A) (body : A -> M unit) :
  (forall x, total (body x)) -> total (for_each l body).
Proof.
  intros Hb. induction l as [|x l IH]; simpl.
  - apply total_ret.
  - apply total_seq; [apply Hb | exact IH].
Qed.

Lemma total_result (m : M unit) (w : World) : total m -> result_of m w = Ok tt.
Proof. intros H. unfold result_of. now destruct (H w) as [w' ->]. Qed.

Lemma total_modify f : total (modify f).
Proof. intros w. unfold modify. eauto. Qed.

Lemma total_read_bind {A} (f : World -> A) (k : A -> M unit) :
  (forall a, total (k a)) -> total (x <- read f ;; k x).
Proof. intros H w. unfold bind, read. apply H. Qed.


Lemma total_new_line : total console.new_line.
Proof. apply total_println. Qed.

Lemma total_end_block message color bg_color style :
  total (console.end_block message color bg_color style).
Proof.
  unfold console.end_block.
  apply total_seq; [apply total_modify|].
  apply total_read_bind; intros l.
  apply total_seq; [apply total_println | apply total_new_line].
Qed.

Lemma total_print_matrix_row row max_len_value color nan_format color_style
    color_index end_line start_line index_name indentation :
  total (console.__print_matrix_row row max_len_value (Some color) nan_format
           color_style color_index end_line start_line index_name indentation).
Proof.
  unfold console.__print_matrix_row.
  repeat (apply total_seq; [apply total_println|]).
  apply total_seq; [|apply total_println].
  apply total_for_each; intros cell. apply total_println.
Qed.


(** C2: [println] of the Console Engine with [reset_all_colors=False] (and
    no colours) writes the indentation, the text and the line end and
    nothing else, in every world, whatever its [autoreset_colors]; so in a
    fresh process, where [autoreset_colors] is true,
    [println('x', reset_all_colors=False)] writes no reset sequence, while
    the same call of the Legacy Facade writes it. *)
Theorem println_engine_ignores_autoreset :
  (forall w message endl withlvl sep,
     stdout (world_after
               (console.println message endl withlvl "" "" false "" sep) w)
     = stdout w
       ++ (if withlvl
           then _indentation_lvl
                  (engine (world_after console._ConsoleConfig__init w))
                ++ join sep message
           else join sep message)
       ++ endl) /\
  _autoreset_colors (engine fresh_world) = true /\
  autoreset_colors (facade fresh_world) = true /\
  console.println ["x"] newline true "" "" false "" " " fresh_world =
    (Ok tt,
     set_stdout ("x" ++ newline)
       (set_engine (with_is_init true default_engine) fresh_world)) /\
  stdout (world_after
            (consoleverse.println ["x"] newline true "" "" false "" " ")
            fresh_world)
  = "x" ++ reset ++ newline.
Proof.
  split; [|repeat split].
  intros w message endl withlvl sep.
  unfold world_after at 1. rewrite println_effect. cbv zeta.
  cbn [snd stdout set_stdout]. rewrite stdout_after_init.
  unfold colorized.
  change (code_or_empty ColorText.COLORS "") with "".
  change (code_or_empty ColorBackground.BACKGROUNDS "") with "".
  change (code_or_empty ColorStyle.STYLES "") with "".
  cbn [append]. now rewrite append_empty_r.
Qed.




(* ------------------------------------------------------------------ *)
(** ** Blocks                                                          *)
(* ------------------------------------------------------------------ *)

Lemma start_block_effect message color bg_color w :
  _is_init (engine w) = true ->
  console.start_block message color bg_color w
  = (Ok tt, after_start_block message color bg_color w).
Proof.
  intros Hi.
  unfold console.start_block, bind at 1, read.
  unfold bind. rewrite println_effect. cbv zeta.
  rewrite (_init_when_initialized _ Hi).
  reflexivity.
Qed.

Lemma end_block_effect message color bg_color style w :
  _is_init (engine w) = true ->
  console.end_block message color bg_color style w
  = (Ok tt, after_end_block message color bg_color style w).
Proof.
  intros Hi.
  unfold console.end_block, console.del_lvl,
    console._ConsoleConfig_del_indentation_lvl, console.new_line.
  unfold bind, modify, read.
  rewrite println_effect. cbv zeta.
  rewrite _init_when_initialized by (simpl; exact Hi).
  rewrite println_effect. cbv zeta.
  rewrite _init_when_initialized by (simpl; exact Hi).
  unfold after_end_block. simpl.
  now rewrite !append_assoc.
Qed.

Lemma for_each_app {A} (a b : list A) (body : A -> M unit) (w : World) :
  for_each (a ++ b) body w = (for_each a body ;; for_each b body) w.
Proof.
  revert w. induction a as [|x a IH]; intros w; simpl.
  - reflexivity.
  - unfold bind. destruct (body x w) as [[[]|e] w1]; [|reflexivity].
    rewrite IH. reflexivity.
Qed.

Lemma block_ready_deeper (c : _ConsoleConfig) :
  block_ready c ->
  block_ready
    (with__indentation_lvl
       (_indentation_lvl c ++ str_mul (_indentation_type c) (_indentantion_size c))
       c).
Proof.
  intros (Hi & Hu & Hv). repeat split; simpl; try assumption.
  destruct Hv as [Hv|Hv]; [now left|].
  destruct (Z.le_gt_cases (_indentantion_size c) 0) as [Hle|Hgt].
  - right. simpl. rewrite Hv. unfold str_mul.
    replace (Z.to_nat (_indentantion_size c)) with O by lia. reflexivity.
  - now left.
Qed.

Lemma nested_run (calls : list block_call) :
  nested calls ->
  forall w, block_ready (engine w) ->
  exists w', for_each calls run_call w = (Ok tt, w') /\ engine w' = engine w.
Proof.
  induction 1 as [|m1 c1 b1 m2 c2 b2 s2 inner Hin IH|a b Ha IHa Hb IHb];
    intros w Hw.
  - exists w. split; reflexivity.
  - destruct Hw as (Hi & Hu & Hv).
    simpl for_each. unfold bind at 1. simpl run_call.
    rewrite (start_block_effect _ _ _ _ Hi).
    rewrite for_each_app. unfold bind at 1.
    destruct (IH (after_start_block m1 c1 b1 w)) as (w2 & E2 & G2).
    { simpl. apply block_ready_deeper. repeat split; assumption. }
    rewrite E2. simpl for_each. unfold bind at 1. simpl run_call.
    assert (Hi2 : _is_init (engine w2) = true) by (rewrite G2; exact Hi).
    rewrite (end_block_effect _ _ _ _ _ Hi2).
    eexists. split; [reflexivity|].
    unfold after_end_block. simpl. rewrite G2. simpl.
    rewrite (@slice_to_added_level _ _ _ Hu Hv).
    now destruct (engine w).
  - rewrite for_each_app. unfold bind.
    destruct (IHa w Hw) as (w1 & E1 & G1). rewrite E1.
    destruct (IHb w1) as (w2 & E2 & G2); [now rewrite G1|].
    exists w2. split; [exact E2 | now rewrite G2].
Qed.

(** C8: from an initialised configuration whose indentation unit is one
    character (and whose levels can be taken back: a positive size, or no
    indentation yet), [start_block] prints its title line at the current
    indentation and then appends one level, the unit repeated size times;
    [end_block] first cuts the indentation with [[:-size]], which removes
    exactly [size] characters when that many are there, and prints its
    title line at the shortened indentation; and every properly nested
    sequence of calls returns normally and leaves the configuration, the
    indentation string included, as it was. *)
Theorem blocks_restore_indentation (w : World) :
  _is_init (engine w) = true ->
  String.length (_indentation_type (engine w)) = 1%nat ->
  levels_removable (engine w) ->
  (forall message color bg_color,
     console.start_block message color bg_color w
     = (Ok tt, after_start_block message color bg_color w))
  /\ (forall message color bg_color style,
        console.end_block message color bg_color style w
        = (Ok tt, after_end_block message color bg_color style w))
  /\ (1 <= _indentantion_size (engine w) <= len (_indentation_lvl (engine w)) ->
      slice_to (_indentation_lvl (engine w)) (- _indentantion_size (engine w))
      = remove_last (_indentantion_size (engine w)) (_indentation_lvl (engine w)))
  /\ (forall calls, nested calls ->
        exists w', for_each calls run_call w = (Ok tt, w')
                   /\ engine w' = engine w).
Proof.
  intros Hi Hu Hv.
  split; [intros; now apply start_block_effect|].
  split; [intros; now apply end_block_effect|].
  split.
  - intros [H1 H2]. rewrite (slice_to_neg _ H1). f_equal. lia.
  - intros calls Hn. apply (nested_run Hn). repeat split; assumption.
Qed.

Lemma blocks_restore_indentation_witness :
  _is_init (engine world_two_levels) = true /\
  String.length (_indentation_type (engine world_two_levels)) = 1%nat /\
  levels_removable (engine world_two_levels) /\
  _indentation_lvl
    (engine (world_after
               (for_each [StartBlock ["a"] "BLUE" ""; StartBlock ["b"] "BLUE" "";
                          EndBlock ["b"] "BLUE" "" ""; EndBlock ["a"] "BLUE" "" ""]
                         run_call)
               world_two_levels))
  = "    ".
Proof.
  assert (Hi : _is_init (engine world_two_levels) = true) by reflexivity.
  assert (Hu : String.length (_indentation_type (engine world_two_levels)) = 1%nat)
    by reflexivity.
  assert (Hv : levels_removable (engine world_two_levels))
    by (left; simpl; lia).
  repeat (split; [assumption|]).
  destruct (blocks_restore_indentation world_two_levels Hi Hu Hv)
    as (_ & _ & _ & Hn).
  destruct (Hn [StartBlock ["a"] "BLUE" ""; StartBlock ["b"] "BLUE" "";
                EndBlock ["b"] "BLUE" "" ""; EndBlock ["a"] "BLUE" "" ""])
    as (w' & E & G).
  - apply (nested_pair ["a"] "BLUE" "" ["a"] "BLUE" "" ""
             (inner := [StartBlock ["b"] "BLUE" ""; EndBlock ["b"] "BLUE" "" ""])).
    apply (nested_pair ["b"] "BLUE" "" ["b"] "BLUE" "" "" (inner := [])).
    apply nested_nil.
  - unfold world_after. rewrite E. simpl. rewrite G. reflexivity.
Defined.

Lemma init_block_ready (w : World) (clear : bool) (itype : string) (isize : Z)
    (autoreset : bool) :
  String.length itype = 1%nat ->
  block_ready (engine (world_after (console.init clear itype isize autoreset) w)).
Proof.
  intros Hu.
  unfold world_after, console.init, console._ConsoleConfig_init,
    console.clear_screen, os_system, modify, read, bind, ret.
  destruct clear; simpl; (repeat split; [exact Hu | now right]).
Qed.

(* ------------------------------------------------------------------ *)
(** ** Text boxes and matrices                                         *)
(* ------------------------------------------------------------------ *)

(** C3: for a [border] other than ['simpleline'] and ['doubleline'],
    [textbox] raises before it prints anything, but what it raises is
    [ErrorNotDefinedStyle] holding the text ['Unknown border style: ' +
    border], whose rendering uses the style template; it is not
    [ErrorNotDefinedBorderStyle] holding the border name. *)
Theorem textbox_unknown_border_error
    (Line : console.LineGlyphs) (message : list string) (withlvl : bool)
    (color bg_color : string) (r : bool) (style sep : string)
    (border border_color border_style : string) (w : World) :
  border <> "simpleline" ->
  border <> "doubleline" ->
  console.textbox Line message withlvl color bg_color r style sep border
                  border_color border_style w
  = (Raise (ErrorNotDefinedStyle ("Unknown border style: " ++ border)), w)
  /\ ErrorNotDefinedStyle ("Unknown border style: " ++ border)
     <> ErrorNotDefinedBorderStyle border
  /\ console_error_str (language w)
       (ErrorNotDefinedStyle ("Unknown border style: " ++ border))
     = Some (format1 (MSG_style (language w)) ("Unknown border style: " ++ border)).
Proof.
  intros H1 H2.
  apply String.eqb_neq in H1, H2.
  unfold console.textbox, bind. rewrite H1, H2.
  repeat split. discriminate.
Qed.

Lemma textbox_unknown_border_error_witness :
  "triangle" <> "simpleline" /\
  "triangle" <> "doubleline" /\
  forall Line,
    console.textbox Line ["hi"] true "" "" true "" " " "triangle" "" "" fresh_world
    = (Raise (ErrorNotDefinedStyle "Unknown border style: triangle"), fresh_world).
Proof.
  assert (H1 : "triangle" <> "simpleline") by discriminate.
  assert (H2 : "triangle" <> "doubleline") by discriminate.
  repeat (split; [assumption|]).
  intros Line.
  exact (proj1 (@textbox_unknown_border_error Line ["hi"] true "" "" true "" " "
                  "triangle" "" "" fresh_world H1 H2)).
Defined.

(** C4: on a matrix that is not empty, a [style] outside the names
    [print_matrix] knows raises [ErrorNotDefinedStyle] before anything is
    printed, and the error holds the text ['Unknown style: ' + style], not
    the style name: its rendering interpolates that whole text into the
    template. *)
Theorem print_matrix_unknown_style_error
    (Line : console.LineGlyphs) (matrix : list (list string))
    (header indexes : console.labels) (style nan_format : string)
    (color : option string) (color_index color_style : string)
    (withlvl : bool) (w : World) :
  matrix <> [] ->
  str_in style matrix_styles = false ->
  console.print_matrix Line matrix header indexes (Some style) nan_format color
                       color_index color_style withlvl w
  = (Raise (ErrorNotDefinedStyle ("Unknown style: " ++ style)), w)
  /\ ErrorNotDefinedStyle ("Unknown style: " ++ style) <> ErrorNotDefinedStyle style
  /\ console_error_str (language w)
       (ErrorNotDefinedStyle ("Unknown style: " ++ style))
     = Some (format1 (MSG_style (language w)) ("Unknown style: " ++ style)).
Proof.
  intros Hm Hs.
  split; [|split; [|reflexivity]].
  - destruct matrix as [|row rest]; [contradiction|].
    unfold matrix_styles, str_in in Hs. simpl existsb in Hs.
    repeat match goal with
           | H : (_ || _)%bool = false |- _ =>
               apply orb_false_elim in H; destruct H
           end.
    unfold console.print_matrix, bind.
    destruct (console.labels_eq_str header "all"); simpl;
      repeat match goal with
             | H : String.eqb style _ = false |- _ => rewrite H; clear H
             end; reflexivity.
  - intros H. inversion H as [H'].
    apply (f_equal String.length) in H'. simpl in H'. lia.
Qed.

Lemma print_matrix_unknown_style_error_witness :
  [["1"]] <> @nil (list string) /\
  str_in "triangle" matrix_styles = false /\
  (forall Line,
     console.print_matrix Line [["1"]] (console.LStr "all") (console.LStr "all")
       (Some "triangle") "" None "" "" true fresh_world
     = (Raise (ErrorNotDefinedStyle "Unknown style: triangle"), fresh_world)) /\
  console_error_str en (ErrorNotDefinedStyle "Unknown style: triangle")
  = Some ("The style " ++ dq ++ "Unknown style: triangle" ++ dq
          ++ " is not defined in the consoleverse").
Proof.
  assert (Hm : [["1"]] <> @nil (list string)) by discriminate.
  assert (Hs : str_in "triangle" matrix_styles = false) by reflexivity.
  repeat (split; [assumption|]).
  split; [|reflexivity].
  intros Line.
  exact (proj1 (@print_matrix_unknown_style_error Line [["1"]]
                  (console.LStr "all") (console.LStr "all") "triangle" "" None
                  "" "" true fresh_world Hm Hs)).
Defined.

(** In the semibox style the blank line of [bottom_line] is printed while
    the arguments are evaluated, before [__print_matrix_base] prints
    anything, and the bottom line that reaches it is [None]. *)
Lemma box_style_semibox_blank_line_first
    (row : list string) (rest : list (list string))
    (header indexes : console.labels) (nan_format : string)
    (color : option string) (color_index color_style : string)
    (max_len_value len_index : Z) (withlvl : bool) (w : World) :
  let n := Z.of_nat (List.length row) in
  let indentation := if withlvl then _indentation_lvl (engine w) else "" in
  console.__print_matrix_box_style (row :: rest) header indexes nan_format color
    color_index color_style max_len_value len_index "semibox" withlvl w
  = (console.new_line ;;
     console.__print_matrix_base (row :: rest) header indexes nan_format color
       color_index color_style max_len_value len_index (Some "semibox") withlvl
       " | " ""
       (Some (indentation ++ str_mul " " (len_index + 3)
              ++ str_mul "-" (n * max_len_value) ++ str_mul "-" (n * 2)))
       None 3) w.
Proof.
  intros n indentation.
  unfold console.__print_matrix_box_style, console.len_first_row,
    console._ConsoleConfig_indentation_lvl, bind, lift, read, ret.
  change (String.eqb "semibox" "box") with false. cbv beta iota.
  destruct (console.new_line w) as [[[]|e] w1]; reflexivity.
Qed.

(** C6: for [[1, 2], [3, 4]] printed in a fresh process, style ['box']
    gives header, divider, two rows closed by [' | '] and the divider again;
    style ['semibox'] gives the blank line first, then header, divider and
    the two rows without the right border, and nothing after the last row.
    The blank line is not at the end of the rendering. *)
Theorem semibox_blank_line_comes_first (Line : console.LineGlyphs) :
  stdout (world_after
            (console.print_matrix Line m22 (console.LStr "all") (console.LStr "all")
               (Some "box") "" (Some "") "" "" true) fresh_world)
  = m22_header ++ m22_divider
    ++ m22_row "0" "1" "2" " | " ++ m22_row "1" "3" "4" " | " ++ m22_divider
  /\
  stdout (world_after
            (console.print_matrix Line m22 (console.LStr "all") (console.LStr "all")
               (Some "semibox") "" (Some "") "" "" true) fresh_world)
  = m22_blank ++ m22_header ++ m22_divider
    ++ m22_row "0" "1" "2" "" ++ m22_row "1" "3" "4" ""
  /\
  stdout (world_after
            (console.print_matrix Line m22 (console.LStr "all") (console.LStr "all")
               (Some "semibox") "" (Some "") "" "" true) fresh_world)
  <> m22_header ++ m22_divider
     ++ m22_row "0" "1" "2" "" ++ m22_row "1" "3" "4" "" ++ m22_blank.
Proof.
  split; [vm_compute; reflexivity|].
  split; [vm_compute; reflexivity|].
  apply String.eqb_neq. vm_compute. reflexivity.
Qed.

(* ------------------------------------------------------------------ *)
(** ** Progress bar                                                    *)
(* ------------------------------------------------------------------ *)

Lemma int_of_Q_floor (x : Q) : (0 <= x)%Q -> console.int_of_Q x = Qfloor x.
Proof.
  destruct x as [n d]. unfold Qle, console.int_of_Q, Qfloor. simpl.
  intros H. apply Z.quot_div_nonneg; lia.
Qed.

Lemma Qlt_bool_false (a b : Q) : (b <= a)%Q -> console.Qlt_bool a b = false.
Proof.
  intros H. unfold console.Qlt_bool.
  now rewrite (proj2 (Qle_bool_iff b a) H).
Qed.


Lemma scaled_progress_nonneg (progress : Q) (n : Z) :
  (0 <= progress)%Q -> 0 <= n -> (0 <= progress * inject_Z n)%Q.
Proof.
  intros Hp Hn. apply Qmult_le_0_compat; [exact Hp|].
  change 0%Q with (inject_Z 0). now rewrite <- Zle_Qle.
Qed.

(** The body of [progress_bar] once the five checks have passed. *)
Lemma progress_bar_after_checks
    (progress : number) (width : Z) (bar start_bar end_bar spacing : string)
    (pct : bool) (kwargs : console.println_kwargs) (w : World) :
  console.lt_0 progress = false -> console.gt_1 progress = false ->
  0 <= width -> len bar = 1 -> len start_bar = 1 -> len end_bar = 1 ->
  forall (scaled percent : number) (filled n : Z),
  console.mul_int progress width = Ok scaled ->
  console.int_of scaled = Ok filled ->
  (pct = true ->
   console.mul_int progress 100 = Ok percent /\ console.int_of percent = Ok n) ->
  console.progress_bar progress width bar start_bar end_bar spacing pct kwargs w
  = console.println_kw
      (start_bar ++ str_mul bar filled ++ str_mul spacing (width - filled)
       ++ end_bar
       ++ (if pct then " (" ++ str_of_int n ++ "%)" else ""))
      kwargs w.
Proof.
  intros H0 H1 Hw Hb Hs He scaled percent filled n Hm Hi Hp.
  unfold console.progress_bar.
  rewrite H0, H1. simpl orb. cbv iota.
  destruct (Z.ltb_spec width 0); [lia|].
  rewrite Hb, Hs, He. simpl negb. cbv iota.
  rewrite Hm. unfold bind at 1, lift at 1.
  rewrite Hi. unfold bind at 1, lift at 1.
  destruct pct.
  - destruct (Hp eq_refl) as [Hm' Hi']. rewrite Hm'.
    unfold bind at 1. unfold bind at 1, lift at 1.
    rewrite Hi'. unfold bind at 1, lift at 1. reflexivity.
  - reflexivity.
Qed.


Lemma progress_bar_on_valid_input
    (progress : Q) (width : Z) (bar start_bar end_bar spacing : string)
    (pct : bool) (kwargs : console.println_kwargs) (w : World) :
  (0 <= progress)%Q -> (progress <= 1)%Q -> 0 <= width ->
  len bar = 1 -> len start_bar = 1 -> len end_bar = 1 ->
  console.progress_bar progress width bar start_bar end_bar spacing pct kwargs w
  = console.println_kw
      (start_bar ++ str_mul bar (Qfloor (progress * inject_Z width))
       ++ str_mul spacing (width - Qfloor (progress * inject_Z width))
       ++ end_bar
       ++ (if pct
           then " (" ++ str_of_int (Qfloor (progress * inject_Z 100)) ++ "%)"
           else ""))
      kwargs w.
Proof.
  intros H0 H1 Hw Hb Hs He.
  apply (@progress_bar_after_checks progress width bar start_bar end_bar
           spacing pct kwargs w (Qlt_bool_false H0) (Qlt_bool_false H1)
           Hw Hb Hs He (Exact (progress * inject_Z width))
           (Exact (progress * inject_Z 100))).
  - reflexivity.
  - simpl. now rewrite (int_of_Q_floor (scaled_progress_nonneg H0 Hw)).
  - intros _. split; [reflexivity|]. simpl.
    now rewrite (int_of_Q_floor (@scaled_progress_nonneg progress 100 H0 ltac:(lia))).
Qed.

(** *** Floats *)















Lemma float_of_int_not_nan n g : float_of_int n = Ok g -> g <> S754_nan.
Proof.
  unfold float_of_int.
  destruct (binary_normalize prec emax n 0 false); intros H; inversion H;
    discriminate.
Qed.





(** C7 (as stated) fails: with the float 0.5 and a width of [2 ** 1024],
    which meet every precondition, the width cannot be converted for the
    product [progress * width]: [progress_bar] raises [OverflowError] and
    prints nothing. *)
Lemma progress_bar_overflows_on_huge_width :
  binary64 (Float float_half) /\ is_finite (Float float_half) = true /\
  (0 <= value (Float float_half))%Q /\ (value (Float float_half) <= 1)%Q /\
  0 <= 2 ^ 1024 /\ len "#" = 1 /\ len "[" = 1 /\ len "]" = 1 /\
  console.progress_bar (Float float_half) (2 ^ 1024) "#" "[" "]" "." true
                       console.no_kwargs fresh_world
  = (Raise (OverflowError "int too large to convert to float"), fresh_world).
Proof.
  split; [reflexivity|]. split; [reflexivity|].
  split; [unfold Qle; simpl; lia|]. split; [unfold Qle; simpl; lia|].
  split; [apply Z.pow_nonneg; lia|].
  repeat (split; [reflexivity|]).
  vm_compute. reflexivity.
Qed.

(* ------------------------------------------------------------------ *)
(** ** The colour, background and style tables                         *)
(* ------------------------------------------------------------------ *)

Lemma upper_char_idempotent (c : ascii) : upper_char (upper_char c) = upper_char c.
Proof. destruct c as [[] [] [] [] [] [] [] []]; reflexivity. Qed.

Lemma upper_idempotent (s : string) : upper (upper s) = upper s.
Proof.
  induction s as [|c s IH]; simpl; [reflexivity|].
  now rewrite upper_char_idempotent, IH.
Qed.

Lemma dict_get_In (d : list (string * string)) (k v : string) :
  dict_get d k = Some v -> In (k, v) d.
Proof.
  induction d as [|[k' v'] d IH]; simpl; [discriminate|].
  destruct (String.eqb_spec k k') as [->|Hne].
  - intros H. inversion H. now left.
  - intros H. right. now apply IH.
Qed.

Lemma dict_has_keys (d : list (string * string)) (k : string) :
  dict_has d k = true <-> In k (map fst d).
Proof.
  unfold dict_has. induction d as [|[k' v'] d IH]; simpl.
  - split; [discriminate | contradiction].
  - destruct (String.eqb_spec k k') as [->|Hne].
    + split; [now left | reflexivity].
    + rewrite IH. split; [now right | intros [H|H]; [congruence | exact H]].
Qed.

Lemma dict_get_injective (d : list (string * string)) :
  NoDup (map snd d) ->
  forall k1 k2 v, dict_get d k1 = Some v -> dict_get d k2 = Some v -> k1 = k2.
Proof.
  induction d as [|[k v0] d IH]; simpl; intros Hnd k1 k2 v H1 H2; [discriminate|].
  inversion Hnd as [|x l Hnotin Hnd']; subst.
  destruct (String.eqb_spec k1 k) as [->|N1], (String.eqb_spec k2 k) as [->|N2].
  - reflexivity.
  - inversion H1; subst. exfalso. apply Hnotin.
    apply dict_get_In in H2. now apply (in_map snd) in H2.
  - inversion H2; subst. exfalso. apply Hnotin.
    apply dict_get_In in H1. now apply (in_map snd) in H1.
  - now apply (IH Hnd' k1 k2 v).
Qed.

Lemma getitem_found (d : list (string * string)) (e : exn) (k v : string) :
  match dict_get d k with Some x => Ok x | None => Raise e end = Ok v
  <-> dict_get d k = Some v.
Proof.
  destruct (dict_get d k); split; intros H; inversion H; reflexivity.
Qed.

(** X1: lookup and membership in the three tables look at the upper-case
    form of the name only: two spellings with the same upper-case form are
    both members or both not, and a lookup that succeeds for one returns
    the same sequence for the other; the upper-case spelling itself is one
    of them. *)
Theorem lookup_ignores_case (a b : string) :
  upper a = upper b ->
  (ColorText.contains a = ColorText.contains b
   /\ ColorBackground.contains a = ColorBackground.contains b
   /\ ColorStyle.contains a = ColorStyle.contains b)
  /\ (forall v, ColorText.getitem a = Ok v <-> ColorText.getitem b = Ok v)
  /\ (forall v, ColorBackground.getitem a = Ok v
                <-> ColorBackground.getitem b = Ok v)
  /\ (forall v, ColorStyle.getitem a = Ok v <-> ColorStyle.getitem b = Ok v)
  /\ (forall v, ColorText.getitem a = Ok v
                <-> ColorText.getitem (upper a) = Ok v).
Proof.
  intros H.
  unfold ColorText.contains, ColorBackground.contains, ColorStyle.contains,
    ColorText.getitem, ColorBackground.getitem, ColorStyle.getitem.
  rewrite upper_idempotent, H.
  repeat split; intros; rewrite ?getitem_found in *; assumption.
Qed.

Lemma lookup_ignores_case_witness :
  upper "red" = upper "Red" /\
  ColorText.getitem "red" = Ok (start 31) /\
  ColorText.getitem "Red" = Ok (start 31).
Proof.
  assert (H : upper "red" = upper "Red") by reflexivity.
  split; [exact H|].
  destruct (lookup_ignores_case "red" "Red" H) as (_ & Hc & _).
  assert (E : ColorText.getitem "red" = Ok (start 31)) by reflexivity.
  split; [exact E | now apply Hc].
Defined.

(** X2: a name is a member of a table exactly when its upper-case form is
    one of the table's names; a lookup of a member returns a sequence, and
    a lookup of any other name raises the table's own error
    ([ColorTextError], [ColorBackgroundError], [ColorStyleError]) holding
    the name as it was spelled. *)
Theorem lookup_outside_table_raises (n : string) :
  (ColorText.contains n = true <-> In (upper n) ColorText.COLORS_LIST)
  /\ (ColorBackground.contains n = true
      <-> In (upper n) ColorBackground.BACKGROUNDS_LIST)
  /\ (ColorStyle.contains n = true <-> In (upper n) ColorStyle.STYLES_LIST)
  /\ (ColorText.contains n = true -> exists v, ColorText.getitem n = Ok v)
  /\ (ColorBackground.contains n = true ->
      exists v, ColorBackground.getitem n = Ok v)
  /\ (ColorStyle.contains n = true -> exists v, ColorStyle.getitem n = Ok v)
  /\ (ColorText.contains n = false ->
      ColorText.getitem n = Raise (ColorTextError n))
  /\ (ColorBackground.contains n = false ->
      ColorBackground.getitem n = Raise (ColorBackgroundError n))
  /\ (ColorStyle.contains n = false ->
      ColorStyle.getitem n = Raise (ColorStyleError n)).
Proof.
  unfold ColorText.contains, ColorBackground.contains, ColorStyle.contains,
    ColorText.getitem, ColorBackground.getitem, ColorStyle.getitem,
    ColorText.COLORS_LIST, ColorBackground.BACKGROUNDS_LIST,
    ColorStyle.STYLES_LIST.
  split; [apply dict_has_keys|].
  split; [apply dict_has_keys|].
  split; [apply dict_has_keys|].
  unfold dict_has.
  repeat split; intros H;
    match goal with
    | |- context [dict_get ?d ?k] => destruct (dict_get d k)
    end; try discriminate; eauto.
Qed.

Lemma lookup_outside_table_raises_witness :
  ColorText.contains "ULTRAVIOLET" = false /\
  ColorText.getitem "ULTRAVIOLET" = Raise (ColorTextError "ULTRAVIOLET") /\
  ColorStyle.contains "bold" = true /\
  (exists v, ColorStyle.getitem "bold" = Ok v).
Proof.
  assert (H1 : ColorText.contains "ULTRAVIOLET" = false) by reflexivity.
  assert (H2 : ColorStyle.contains "bold" = true) by reflexivity.
  destruct (lookup_outside_table_raises "ULTRAVIOLET")
    as (_ & _ & _ & _ & _ & _ & Hc & _).
  destruct (lookup_outside_table_raises "bold")
    as (_ & _ & _ & _ & _ & Hs & _).
  split; [exact H1|]. split; [exact (Hc H1)|].
  split; [exact H2 | exact (Hs H2)].
Defined.

Lemma colors_values_distinct : NoDup (map snd ColorText.COLORS).
Proof.
  repeat (apply NoDup_cons; [simpl; intuition discriminate|]). apply NoDup_nil.
Qed.

Lemma backgrounds_values_distinct : NoDup (map snd ColorBackground.BACKGROUNDS).
Proof.
  repeat (apply NoDup_cons; [simpl; intuition discriminate|]). apply NoDup_nil.
Qed.

Lemma styles_values_distinct : NoDup (map snd ColorStyle.STYLES).
Proof.
  repeat (apply NoDup_cons; [simpl; intuition discriminate|]). apply NoDup_nil.
Qed.

(** X3: every name a table lists is a member of it, so no listed name is
    out of reach of the upper-casing lookup; and within a table two names
    that look up to the same sequence are the same name up to case. *)
Theorem listed_names_found_and_distinct (a b v : string) :
  (In a ColorText.COLORS_LIST -> ColorText.contains a = true)
  /\ (In a ColorBackground.BACKGROUNDS_LIST -> ColorBackground.contains a = true)
  /\ (In a ColorStyle.STYLES_LIST -> ColorStyle.contains a = true)
  /\ (ColorText.getitem a = Ok v -> ColorText.getitem b = Ok v ->
      upper a = upper b)
  /\ (ColorBackground.getitem a = Ok v -> ColorBackground.getitem b = Ok v ->
      upper a = upper b)
  /\ (ColorStyle.getitem a = Ok v -> ColorStyle.getitem b = Ok v ->
      upper a = upper b).
Proof.
  split; [|split; [|split]].
  - simpl. intros H.
    repeat (destruct H as [<-|H]; [reflexivity|]). contradiction.
  - simpl. intros H.
    repeat (destruct H as [<-|H]; [reflexivity|]). contradiction.
  - simpl. intros H.
    repeat (destruct H as [<-|H]; [reflexivity|]). contradiction.
  - unfold ColorText.getitem, ColorBackground.getitem, ColorStyle.getitem.
    rewrite !getitem_found.
    split; [|split]; intros H1 H2.
    + exact (@dict_get_injective _ colors_values_distinct _ _ _ H1 H2).
    + exact (@dict_get_injective _ backgrounds_values_distinct _ _ _ H1 H2).
    + exact (@dict_get_injective _ styles_values_distinct _ _ _ H1 H2).
Qed.

Lemma listed_names_found_and_distinct_witness :
  In "MAGENTA" ColorText.COLORS_LIST /\
  ColorText.contains "MAGENTA" = true /\
  ColorStyle.getitem "Blink" = Ok (start 5) /\
  ColorStyle.getitem "BLINK" = Ok (start 5) /\
  upper "Blink" = upper "BLINK".
Proof.
  assert (Hin : In "MAGENTA" ColorText.COLORS_LIST) by (simpl; tauto).
  assert (E1 : ColorStyle.getitem "Blink" = Ok (start 5)) by reflexivity.
  assert (E2 : ColorStyle.getitem "BLINK" = Ok (start 5)) by reflexivity.
  split; [exact Hin|].
  split; [exact (proj1 (listed_names_found_and_distinct "MAGENTA" "" "") Hin)|].
  split; [exact E1|]. split; [exact E2|].
  destruct (listed_names_found_and_distinct "Blink" "BLINK" (start 5))
    as (_ & _ & _ & _ & _ & Hs).
  exact (Hs E1 E2).
Defined.

(* ------------------------------------------------------------------ *)
(** ** What the operations leave alone                                 *)
(* ------------------------------------------------------------------ *)

Lemma keeps_ret {A B} (f : World -> A) (b : B) : keeps f (ret b).
Proof. intros w. reflexivity. Qed.

Lemma keeps_raise {A B} (f : World -> A) (e : exn) : keeps f (@raise B e).
Proof. intros w. reflexivity. Qed.

Lemma keeps_lift {A B} (f : World -> A) (o : outcome B) : keeps f (lift o).
Proof. intros w. reflexivity. Qed.

Lemma keeps_read {A B} (f : World -> A) (g : World -> B) : keeps f (read g).
Proof. intros w. reflexivity. Qed.

Lemma keeps_modify {A} (f : World -> A) (g : World -> World) :
  (forall w, f (g w) = f w) -> keeps f (modify g).
Proof. intros H w. apply H. Qed.

Lemma keeps_bind {A B C} (f : World -> A) (m : M B) (k : B -> M C) :
  keeps f m -> (forall b, keeps f (k b)) -> keeps f (bind m k).
Proof.
  intros Hm Hk w. specialize (Hm w).
  unfold keeps, world_after, bind in *.
  destruct (m w) as [[b|e] w1]; simpl in *.
  - rewrite <- Hm. apply Hk.
  - exact Hm.
Qed.

Lemma keeps_for_each {A B} (f : World -> A) (l : list B) (body : B -> M unit) :
  (forall x, keeps f (body x)) -> keeps f (for_each l body).
Proof.
  intros Hb. induction l as [|x l IH]; simpl.
  - apply keeps_ret.
  - apply keeps_bind; [apply Hb | intros _; exact IH].
Qed.

Lemma keeps_for_enumerate {A B} (f : World -> A) (l : list B)
    (body : nat -> B -> M unit) (i : nat) :
  (forall j x, keeps f (body j x)) -> keeps f (console.for_enumerate i l body).
Proof.
  intros Hb. revert i. induction l as [|x l IH]; intros i; simpl.
  - apply keeps_ret.
  - apply keeps_bind; [apply Hb | intros _; apply IH].
Qed.

(** Steps that take the building blocks of the operations apart. *)
Ltac keeps_step :=
  first
    [ apply keeps_ret
    | apply keeps_raise
    | apply keeps_lift
    | apply keeps_read
    | apply keeps_modify; intros; cbv beta zeta;
      repeat match goal with
             | |- context [if ?b then _ else _] => destruct b
             end;
      solve [ auto ]
    | apply keeps_for_each; intros
    | apply keeps_for_enumerate; intros
    | apply keeps_bind; [|intros] ].





















Lemma keeps_legacy_println {A} (f : World -> A) message endl withlvl color
    bg_color r style sep :
  facade_blind f ->
  keeps f (consoleverse.println message endl withlvl color bg_color r style sep).
Proof.
  intros [He Hs].
  unfold consoleverse.println, consoleverse.__start_console,
    consoleverse.start_console, print.
  keeps_step.
  { keeps_step; [keeps_step|]. destruct (negb b); repeat keeps_step. }
  repeat keeps_step.
Qed.

Lemma keeps_legacy_add_lvl {A} (f : World -> A) :
  facade_blind f -> keeps f consoleverse.add_lvl.
Proof. intros [He Hs]. unfold consoleverse.add_lvl. keeps_step. Qed.

Lemma keeps_legacy_del_lvl {A} (f : World -> A) :
  facade_blind f -> keeps f consoleverse.del_lvl.
Proof. intros [He Hs]. unfold consoleverse.del_lvl. keeps_step. Qed.

(** X5: the operations of the Legacy Facade change nothing but the
    facade's own configuration and standard output: the Console Engine's
    configuration and the log of operating-system commands are as before
    after [println] (its lazy start included), [warning], [error],
    [add_lvl], [del_lvl], [start_block], [end_block] and [line], whether
    they return or raise.  The two indentation states never meet. *)
Theorem legacy_printing_touches_only_facade_and_stdout
    {A} (f : World -> A) (message : list string) (endl : string)
    (withlvl : bool) (color bg_color : string) (r : bool) (style sep : string)
    (size : Z) :
  facade_blind f ->
  keeps f (consoleverse.println message endl withlvl color bg_color r style sep)
  /\ keeps f (consoleverse.warning message color bg_color style)
  /\ keeps f (consoleverse.error message color bg_color style)
  /\ keeps f consoleverse.add_lvl
  /\ keeps f consoleverse.del_lvl
  /\ keeps f (consoleverse.start_block message color bg_color)
  /\ keeps f (consoleverse.end_block message color bg_color style)
  /\ keeps f (consoleverse.line size style color bg_color sep).
Proof.
  intros Hf.
  split; [now apply keeps_legacy_println|].
  split; [now apply keeps_legacy_println|].
  split; [now apply keeps_legacy_println|].
  split; [now apply keeps_legacy_add_lvl|].
  split; [now apply keeps_legacy_del_lvl|].
  split; [|split].
  - unfold consoleverse.start_block.
    keeps_step; [keeps_step|].
    keeps_step; [now apply keeps_legacy_println | now apply keeps_legacy_add_lvl].
  - unfold consoleverse.end_block, consoleverse.new_line.
    keeps_step; [now apply keeps_legacy_del_lvl|].
    keeps_step; [keeps_step|].
    keeps_step; now apply keeps_legacy_println.
  - unfold consoleverse.line, consoleverse.new_line.
    keeps_step; now apply keeps_legacy_println.
Qed.

Lemma legacy_printing_touches_only_facade_and_stdout_witness :
  facade_blind engine /\
  facade_blind os_calls /\
  engine (world_after (consoleverse.start_block ["a"] "BLUE" "") world_two_levels)
  = engine world_two_levels /\
  os_calls (world_after (consoleverse.println ["a"] newline true "" "" true "" " ")
                        fresh_world) = [].
Proof.
  assert (H1 : facade_blind engine) by (split; reflexivity).
  assert (H2 : facade_blind os_calls) by (split; reflexivity).
  split; [exact H1|]. split; [exact H2|]. split.
  - destruct (legacy_printing_touches_only_facade_and_stdout ["a"] "" true
                "BLUE" "" true "" "" 0 H1) as (_ & _ & _ & _ & _ & Hs & _).
    exact (Hs world_two_levels).
  - destruct (legacy_printing_touches_only_facade_and_stdout ["a"] newline true
                "" "" true "" " " 0 H2) as (Hp & _).
    exact (Hp fresh_world).
Defined.

(* ------------------------------------------------------------------ *)
(** ** Printing on an initialised engine                               *)
(* ------------------------------------------------------------------ *)

Lemma set_stdout_same (w : World) : set_stdout (stdout w ++ "") w = w.
Proof. destruct w. unfold set_stdout. simpl. now rewrite append_empty_r. Qed.

Lemma appends_only_ret : appends_only (ret tt).
Proof. intros w _. exists "". unfold ret. now rewrite set_stdout_same. Qed.

Lemma appends_only_println message endl withlvl color bg_color r style sep :
  appends_only (console.println message endl withlvl color bg_color r style sep).
Proof.
  intros w Hi. rewrite println_effect. cbv zeta.
  rewrite (_init_when_initialized _ Hi). eexists. reflexivity.
Qed.

Lemma appends_only_seq (a b : M unit) :
  appends_only a -> appends_only b -> appends_only (a ;; b).
Proof.
  intros Ha Hb w Hi. unfold bind.
  destruct (Ha w Hi) as [t1 ->].
  destruct (Hb (set_stdout (stdout w ++ t1) w) Hi) as [t2 ->].
  exists (t1 ++ t2). unfold set_stdout. simpl. now rewrite append_assoc.
Qed.

Lemma appends_only_for_each {A} (l : list A) (body : A -> M unit) :
  (forall x, appends_only (body x)) -> appends_only (for_each l body).
Proof.
  intros Hb. induction l as [|x l IH]; simpl.
  - apply appends_only_ret.
  - apply appends_only_seq; [apply Hb | exact IH].
Qed.

Lemma appends_only_textbox Line message withlvl color bg_color r style sep border
    border_color border_style :
  border = "simpleline" \/ border = "doubleline" ->
  appends_only (console.textbox Line message withlvl color bg_color r style sep
                  border border_color border_style).
Proof.
  intros [-> | ->]; unfold console.textbox; intros w; unfold bind at 1;
    simpl; unfold ret;
    apply appends_only_seq; try apply appends_only_println;
    apply appends_only_seq; try apply appends_only_println;
    (apply appends_only_seq;
     [|apply appends_only_seq; apply appends_only_println]);
    apply appends_only_for_each; intros line;
    repeat (apply appends_only_seq; [apply appends_only_println|]);
    apply appends_only_println.
Qed.

(** X6: on an initialised Console Engine, [println], [new_line], [warning],
    [error], [line], the rows of [print_matrix] with a string colour and
    [textbox] with a recognised border return normally and do nothing but
    add text to standard output: the indentation and the rest of the
    configuration are exactly as before, for every argument. *)
Theorem printing_on_initialised_engine_only_appends
    (Line : console.LineGlyphs) (message : list string) (endl : string)
    (withlvl : bool) (color bg_color : string) (r : bool)
    (style sep border border_color border_style : string) (size : Z)
    (row : list string) (max_len_value : Z)
    (nan_format end_line start_line index_name indentation : string) :
  border = "simpleline" \/ border = "doubleline" ->
  appends_only (console.println message endl withlvl color bg_color r style sep)
  /\ appends_only console.new_line
  /\ appends_only (console.warning message color bg_color style)
  /\ appends_only (console.error message color bg_color style)
  /\ appends_only (console.line size sep color bg_color style)
  /\ appends_only (console.__print_matrix_row row max_len_value (Some color)
                     nan_format border_color border_style end_line start_line
                     index_name indentation)
  /\ appends_only (console.textbox Line message withlvl color bg_color r style
                     sep border border_color border_style).
Proof.
  intros Hb.
  split; [apply appends_only_println|].
  split; [apply appends_only_println|].
  split; [apply appends_only_println|].
  split; [apply appends_only_println|].
  split; [apply appends_only_seq; apply appends_only_println|].
  split; [|now apply appends_only_textbox].
  unfold console.__print_matrix_row.
  repeat (apply appends_only_seq; [apply appends_only_println|]).
  apply appends_only_seq; [|apply appends_only_println].
  apply appends_only_for_each; intros cell. apply appends_only_println.
Qed.

Lemma printing_on_initialised_engine_only_appends_witness :
  ("doubleline" = "simpleline" \/ "doubleline" = "doubleline") /\
  _is_init (engine world_two_levels) = true /\
  forall Line,
    engine (world_after
              (console.textbox Line ["hi"] true "RED" "" true "" " " "doubleline"
                 "" "")
              world_two_levels)
    = engine world_two_levels.
Proof.
  assert (Hb : "doubleline" = "simpleline" \/ "doubleline" = "doubleline")
    by (right; reflexivity).
  assert (Hi : _is_init (engine world_two_levels) = true) by reflexivity.
  split; [exact Hb|]. split; [exact Hi|]. intros Line.
  destruct (@printing_on_initialised_engine_only_appends Line ["hi"] "" true
              "RED" "" true "" " " "doubleline" "" "" 0 [] 0 "" "" "" "" "" Hb)
    as (_ & _ & _ & _ & _ & _ & Ht).
  destruct (Ht world_two_levels Hi) as [text E].
  unfold world_after. rewrite E. reflexivity.
Defined.

(* ------------------------------------------------------------------ *)
(** ** Lazy initialisation                                             *)
(* ------------------------------------------------------------------ *)

(** X7: on a Console Engine that has not been initialised, a level added
    with [add_lvl] before the first print is lost: the first [println]
    initialises lazily, which empties the indentation, so the text is
    written without indentation even with [withlvl], and the configuration
    afterwards is initialised with an empty indentation. *)
Theorem lazy_init_discards_earlier_indentation
    (w : World) (message : list string) (endl : string) (withlvl : bool)
    (color bg_color : string) (r : bool) (style sep : string) :
  _is_init (engine w) = false ->
  (console.add_lvl ;;
   console.println message endl withlvl color bg_color r style sep) w
  = (Ok tt,
     set_stdout
       (stdout w ++ colorized (join sep message) color bg_color style r ++ endl)
       (set_engine (with__indentation_lvl "" (with_is_init true (engine w))) w)).
Proof.
  intros Hi.
  unfold bind, console.add_lvl, console._ConsoleConfig_add_indentation_lvl,
    modify.
  rewrite println_effect. cbv zeta.
  unfold world_after, console._ConsoleConfig__init, modify. simpl.
  rewrite Hi. simpl.
  destruct withlvl; reflexivity.
Qed.

Lemma lazy_init_discards_earlier_indentation_witness :
  _is_init (engine fresh_world) = false /\
  stdout (world_after
            (console.add_lvl ;;
             console.println ["x"] newline true "" "" true "" " ")
            fresh_world)
  = "x" ++ reset ++ newline.
Proof.
  assert (Hi : _is_init (engine fresh_world) = false) by reflexivity.
  split; [exact Hi|].
  unfold world_after.
  rewrite (lazy_init_discards_earlier_indentation fresh_world ["x"] newline true
             "" "" true "" " " Hi).
  reflexivity.
Defined.

(** X8: in the Legacy Facade the lazy start of the first [println] is a
    full [start_console(False)]: whatever was set or added before it, the
    facade's configuration afterwards is the default one, started, with an
    empty indentation, whether the [println] returns or raises. *)
Theorem legacy_lazy_start_resets_configuration
    (w : World) (message : list string) (endl : string) (withlvl : bool)
    (color bg_color : string) (r : bool) (style sep : string) :
  is_start_console (facade w) = false ->
  facade (world_after
            (consoleverse.add_lvl ;;
             consoleverse.println message endl withlvl color bg_color r style sep)
            w)
  = mkConsoleConfig " " "" 2 true true.
Proof.
  intros Hs.
  unfold world_after, bind, consoleverse.add_lvl, modify,
    consoleverse.println, consoleverse.__start_console,
    consoleverse.start_console, read, lift, print, bind, modify, ret.
  simpl. rewrite Hs. simpl.
  destruct (consoleverse._colorize _ _ _ _ _); reflexivity.
Qed.

Lemma legacy_lazy_start_resets_configuration_witness :
  is_start_console (facade fresh_world) = false /\
  facade (world_after
            (consoleverse.add_lvl ;;
             consoleverse.println ["x"] newline true "" "" true "" " ")
            fresh_world)
  = mkConsoleConfig " " "" 2 true true.
Proof.
  assert (Hs : is_start_console (facade fresh_world) = false) by reflexivity.
  split; [exact Hs|].
  exact (legacy_lazy_start_resets_configuration fresh_world ["x"] newline true
           "" "" true "" " " Hs).
Defined.

(* ------------------------------------------------------------------ *)
(** ** Indentation levels                                              *)
(* ------------------------------------------------------------------ *)

Lemma length_substring_0 (k : nat) (s : string) :
  String.length (substring 0 k s) = Nat.min k (String.length s).
Proof.
  revert k. induction s as [|c s IH]; intros [|k]; simpl; try reflexivity.
  now rewrite IH.
Qed.

Lemma str_rep_add (u : string) (a b : nat) :
  str_rep u (a + b) = str_rep u a ++ str_rep u b.
Proof.
  induction a as [|a IH]; simpl; [reflexivity|].
  now rewrite IH, append_assoc.
Qed.

Lemma slice_to_empty (stop : Z) : slice_to "" stop = "".
Proof. unfold slice_to. now destruct (Z.to_nat _). Qed.

(** X9: with an indentation unit of one character (and a positive size, or
    no indentation yet), [del_lvl] right after [add_lvl] gives back the
    very world it started from, in the Console Engine and in the Legacy
    Facade. *)
Theorem add_lvl_then_del_lvl_restores (w : World) :
  String.length (_indentation_type (engine w)) = 1%nat ->
  levels_removable (engine w) ->
  String.length (indentation_type (facade w)) = 1%nat ->
  0 < indentantion_size (facade w) \/ indentation_lvl (facade w) = "" ->
  (console.add_lvl ;; console.del_lvl) w = (Ok tt, w)
  /\ (consoleverse.add_lvl ;; consoleverse.del_lvl) w = (Ok tt, w).
Proof.
  intros Hu Hv Hu' Hv'.
  unfold bind, console.add_lvl, console.del_lvl,
    console._ConsoleConfig_add_indentation_lvl,
    console._ConsoleConfig_del_indentation_lvl,
    consoleverse.add_lvl, consoleverse.del_lvl, modify.
  simpl.
  rewrite (@slice_to_added_level _ _ _ Hu Hv),
    (@slice_to_added_level _ _ _ Hu' Hv').
  destruct w as [[] [] ? ? ? ? ?]. split; reflexivity.
Qed.

Lemma add_lvl_then_del_lvl_restores_witness :
  String.length (_indentation_type (engine world_two_levels)) = 1%nat /\
  levels_removable (engine world_two_levels) /\
  String.length (indentation_type (facade world_two_levels)) = 1%nat /\
  (0 < indentantion_size (facade world_two_levels)
   \/ indentation_lvl (facade world_two_levels) = "") /\
  (console.add_lvl ;; console.del_lvl) world_two_levels = (Ok tt, world_two_levels).
Proof.
  assert (H1 : String.length (_indentation_type (engine world_two_levels)) = 1%nat)
    by reflexivity.
  assert (H2 : levels_removable (engine world_two_levels)) by (left; simpl; lia).
  assert (H3 : String.length (indentation_type (facade world_two_levels)) = 1%nat)
    by reflexivity.
  assert (H4 : 0 < indentantion_size (facade world_two_levels)
               \/ indentation_lvl (facade world_two_levels) = "")
    by (left; simpl; lia).
  repeat (split; [assumption|]).
  exact (proj1 (add_lvl_then_del_lvl_restores world_two_levels H1 H2 H3 H4)).
Defined.

(** X10: [add_lvl] appends [size] copies of the unit but [del_lvl] cuts
    [size] characters: with a size of at least one and a unit that is not
    empty, the indentation after [add_lvl] and [del_lvl] is longer than
    before by [size * (len(unit) - 1)] characters, and it is the
    indentation from before exactly when the unit is one character. *)
Theorem del_lvl_undoes_add_lvl_iff_unit_is_one_character (w : World) :
  1 <= _indentantion_size (engine w) ->
  _indentation_type (engine w) <> "" ->
  len (_indentation_lvl
         (engine (world_after (console.add_lvl ;; console.del_lvl) w)))
  = len (_indentation_lvl (engine w))
    + _indentantion_size (engine w) * (len (_indentation_type (engine w)) - 1)
  /\ (_indentation_lvl
        (engine (world_after (console.add_lvl ;; console.del_lvl) w))
      = _indentation_lvl (engine w)
      <-> String.length (_indentation_type (engine w)) = 1%nat).
Proof.
  intros Hn Hu.
  assert (Hu1 : (1 <= String.length (_indentation_type (engine w)))%nat).
  { destruct (_indentation_type (engine w)); [contradiction | simpl; lia]. }
  assert (Hlen :
    len (_indentation_lvl
           (engine (world_after (console.add_lvl ;; console.del_lvl) w)))
    = len (_indentation_lvl (engine w))
      + _indentantion_size (engine w)
        * (len (_indentation_type (engine w)) - 1)).
  { unfold world_after, bind, console.add_lvl, console.del_lvl,
      console._ConsoleConfig_add_indentation_lvl,
      console._ConsoleConfig_del_indentation_lvl, modify. simpl.
    unfold slice_to, slice_stop, len, str_mul.
    destruct (Z.ltb_spec (- _indentantion_size (engine w)) 0); [|lia].
    rewrite length_substring_0, length_append, length_str_rep.
    nia. }
  split; [exact Hlen|]. split.
  - intros E. rewrite E in Hlen. unfold len in Hlen. nia.
  - intros E.
    unfold world_after, bind, console.add_lvl, console.del_lvl,
      console._ConsoleConfig_add_indentation_lvl,
      console._ConsoleConfig_del_indentation_lvl, modify. simpl.
    apply slice_to_added_level; [exact E | left; lia].
Qed.

Lemma del_lvl_undoes_add_lvl_iff_unit_is_one_character_witness :
  1 <= _indentantion_size (engine world_wide_unit) /\
  _indentation_type (engine world_wide_unit) <> "" /\
  len (_indentation_lvl
         (engine (world_after (console.add_lvl ;; console.del_lvl)
                              world_wide_unit))) = 2.
Proof.
  assert (Hn : 1 <= _indentantion_size (engine world_wide_unit)) by (simpl; lia).
  assert (Hu : _indentation_type (engine world_wide_unit) <> "") by discriminate.
  split; [exact Hn|]. split; [exact Hu|].
  exact (proj1 (del_lvl_undoes_add_lvl_iff_unit_is_one_character
                  world_wide_unit Hn Hu)).
Defined.

(** X11: with a unit of one character, the indentation of the Console
    Engine is always the unit repeated [size * depth] times, where the
    depth goes up by one with [add_lvl] and down by one, but not below
    zero, with [del_lvl]: if that holds before a sequence of calls, the
    sequence returns normally and it holds after it, the rest of the
    configuration being untouched.  (For a size below one the indentation
    stays empty.) *)
Theorem indentation_is_unit_times_size_times_depth
    (ops : list lvl_op) (w : World) (d : nat) :
  String.length (_indentation_type (engine w)) = 1%nat ->
  _indentation_lvl (engine w)
  = str_rep (_indentation_type (engine w))
            (Z.to_nat (_indentantion_size (engine w)) * d) ->
  exists w',
    for_each ops run_lvl_op w = (Ok tt, w') /\
    engine w'
    = with__indentation_lvl
        (str_rep (_indentation_type (engine w))
                 (Z.to_nat (_indentantion_size (engine w)) * depth_after ops d))
        (engine w).
Proof.
  revert w d. induction ops as [|o ops IH]; intros w d Hu Hl.
  - exists w. split; [reflexivity|].
    simpl. rewrite <- Hl. now destruct (engine w).
  - simpl for_each. unfold bind at 1.
    destruct o; simpl run_lvl_op.
    + unfold console.add_lvl, console._ConsoleConfig_add_indentation_lvl,
        modify at 1.
      match goal with
      | |- context [for_each ops run_lvl_op ?w1] =>
          destruct (IH w1 (S d)) as (w' & E & G)
      end.
      * exact Hu.
      * simpl. rewrite Hl. unfold str_mul.
        rewrite <- str_rep_add. f_equal. lia.
      * exists w'. split; [exact E|]. rewrite G. reflexivity.
    + unfold console.del_lvl, console._ConsoleConfig_del_indentation_lvl,
        modify at 1.
      match goal with
      | |- context [for_each ops run_lvl_op ?w1] =>
          destruct (IH w1 (Nat.pred d)) as (w' & E & G)
      end.
      * exact Hu.
      * simpl. rewrite Hl. destruct d as [|d']; simpl Nat.pred.
        -- rewrite Nat.mul_0_r. simpl. apply slice_to_empty.
        -- replace (Z.to_nat (_indentantion_size (engine w)) * S d')%nat
             with (Z.to_nat (_indentantion_size (engine w)) * d'
                   + Z.to_nat (_indentantion_size (engine w)))%nat by lia.
           rewrite str_rep_add.
           apply (@slice_to_added_level _ _ (_indentantion_size (engine w)) Hu).
           destruct (Z.le_gt_cases (_indentantion_size (engine w)) 0);
             [right | left; lia].
           replace (Z.to_nat (_indentantion_size (engine w))) with O by lia.
           reflexivity.
      * exists w'. split; [exact E|]. rewrite G. reflexivity.
Qed.

Lemma indentation_is_unit_times_size_times_depth_witness :
  let w := world_after (console.init false "." 3 true) fresh_world in
  String.length (_indentation_type (engine w)) = 1%nat /\
  _indentation_lvl (engine w)
  = str_rep (_indentation_type (engine w))
            (Z.to_nat (_indentantion_size (engine w)) * 0) /\
  _indentation_lvl
    (engine (world_after
               (for_each [AddLvl; AddLvl; DelLvl; DelLvl; DelLvl; AddLvl]
                         run_lvl_op) w))
  = "...".
Proof.
  intros w.
  assert (Hu : String.length (_indentation_type (engine w)) = 1%nat)
    by reflexivity.
  assert (Hl : _indentation_lvl (engine w)
               = str_rep (_indentation_type (engine w))
                         (Z.to_nat (_indentantion_size (engine w)) * 0))
    by reflexivity.
  split; [exact Hu|]. split; [exact Hl|].
  destruct (@indentation_is_unit_times_size_times_depth
              [AddLvl; AddLvl; DelLvl; DelLvl; DelLvl; AddLvl] w 0 Hu Hl)
    as (w' & E & G).
  unfold world_after at 1. rewrite E. simpl. rewrite G. reflexivity.
Defined.

(* ------------------------------------------------------------------ *)
(** ** Edge cases of [line]                                            *)
(* ------------------------------------------------------------------ *)

(** X12: when the built rule is exactly two characters long and starts
    with a space, [line] prints the space alone: the last character is cut
    off whatever it is, in the Console Engine and in the Legacy Facade. *)
Theorem line_cuts_two_character_rule
    (c : ascii) (size : Z) (style color bg_color style_text : string)
    (w : World) :
  str_mul style size = String " " (String c "") ->
  console.line size style color bg_color style_text w
  = (console.println [" "] newline true color bg_color true style_text " " ;;
     console.new_line) w
  /\ consoleverse.line size style color bg_color style_text w
     = (consoleverse.println [" "] newline true color bg_color true style_text
                             " " ;;
        consoleverse.new_line) w.
Proof.
  intros H. unfold console.line, consoleverse.line. rewrite H.
  assert (T : String.eqb (slice_to (String " " (String c "")) (-1)) " " = true).
  { apply line_trim_test. split; reflexivity. }
  rewrite T. split; reflexivity.
Qed.

Lemma line_cuts_two_character_rule_witness :
  str_mul " x" 1 = String " " (String "x" "") /\
  stdout (world_after (console.line 1 " x" "" "" "") fresh_world)
  = " " ++ reset ++ newline ++ reset ++ newline.
Proof.
  assert (H : str_mul " x" 1 = String " " (String "x" "")) by reflexivity.
  split; [exact H|].
  unfold world_after.
  rewrite (proj1 (@line_cuts_two_character_rule "x" 1 " x" "" "" ""
                    fresh_world H)).
  reflexivity.
Defined.

(** X13: a [size] below one (or an empty pattern) gives an empty rule:
    [line] raises nothing and prints an empty line followed by the blank
    line, in both modules. *)
Theorem line_of_no_length_prints_empty_lines
    (size : Z) (style color bg_color style_text : string) (w : World) :
  size <= 0 \/ style = "" ->
  console.line size style color bg_color style_text w
  = (console.println [""] newline true color bg_color true style_text " " ;;
     console.new_line) w
  /\ consoleverse.line size style color bg_color style_text w
     = (consoleverse.println [""] newline true color bg_color true style_text
                             " " ;;
        consoleverse.new_line) w.
Proof.
  intros H.
  assert (E : str_mul style size = "").
  { destruct H as [H| ->]; unfold str_mul.
    - replace (Z.to_nat size) with O by lia. reflexivity.
    - induction (Z.to_nat size) as [|n IH]; simpl; [reflexivity | exact IH]. }
  unfold console.line, consoleverse.line. rewrite E. split; reflexivity.
Qed.

Lemma line_of_no_length_prints_empty_lines_witness :
  (0 <= 0 \/ "-- " = "") /\
  stdout (world_after (console.line 0 "-- " "" "" "") fresh_world)
  = reset ++ newline ++ reset ++ newline.
Proof.
  assert (H : 0 <= 0 \/ "-- " = "") by (left; lia).
  split; [exact H|].
  unfold world_after.
  rewrite (proj1 (@line_of_no_length_prints_empty_lines 0 "-- " "" "" ""
                    fresh_world H)).
  reflexivity.
Defined.

(* ------------------------------------------------------------------ *)
(** ** Measuring and printing matrix cells                             *)
(* ------------------------------------------------------------------ *)

Lemma len_append (a b : string) : len (a ++ b) = len a + len b.
Proof. unfold len. rewrite length_append. lia. Qed.



Lemma max_value_spec (nan_format : string) (m : Z) (cell : string) :
  console.max_value nan_format m cell
  = Z.max m (len (measured_text nan_format cell)).
Proof. reflexivity. Qed.

Lemma fold_max_value_ge (nan_format : string) (cols : list string) (m : Z) :
  m <= fold_left (console.max_value nan_format) cols m.
Proof.
  revert m. induction cols as [|c cols IH]; intros m; simpl; [lia|].
  specialize (IH (console.max_value nan_format m c)).
  rewrite max_value_spec in *. lia.
Qed.

Lemma fold_max_value_bound (nan_format : string) (cols : list string) (m : Z)
    (cell : string) :
  In cell cols ->
  len (measured_text nan_format cell)
  <= fold_left (console.max_value nan_format) cols m.
Proof.
  revert m. induction cols as [|c cols IH]; intros m; simpl; [contradiction|].
  intros [->|Hin].
  - pose proof (fold_max_value_ge nan_format cols
                  (console.max_value nan_format m cell)) as H.
    rewrite max_value_spec in *. lia.
  - now apply IH.
Qed.

(** The step of the outer loop of [__max_len_value]. *)
Lemma max_len_items_ge (nan_format : string) (items : list console.item) (m : Z) :
  m <= fold_left
         (fun max_len row =>
            match row with
            | console.Row cols => fold_left (console.max_value nan_format) cols max_len
            | console.Atom a => console.max_value nan_format max_len a
            end) items m.
Proof.
  revert m. induction items as [|[cols|a] items IH]; intros m; simpl; [lia| |].
  - pose proof (fold_max_value_ge nan_format cols m).
    specialize (IH (fold_left (console.max_value nan_format) cols m)). lia.
  - specialize (IH (console.max_value nan_format m a)).
    rewrite max_value_spec in *. lia.
Qed.

Lemma max_len_items_bound_row (nan_format : string) (matrix : list (list string))
    (m : Z) (row : list string) (cell : string) :
  In row matrix -> In cell row ->
  len (measured_text nan_format cell)
  <= fold_left
       (fun max_len row =>
          match row with
          | console.Row cols => fold_left (console.max_value nan_format) cols max_len
          | console.Atom a => console.max_value nan_format max_len a
          end) (map console.Row matrix) m.
Proof.
  revert m. induction matrix as [|r matrix IH]; intros m; simpl; [contradiction|].
  intros [->|Hin] Hc.
  - pose proof (fold_max_value_bound nan_format row m cell Hc).
    pose proof (max_len_items_ge nan_format (map console.Row matrix)
                  (fold_left (console.max_value nan_format) row m)).
    lia.
  - now apply IH.
Qed.

Lemma max_len_items_bound_atom (nan_format : string) (labels : list string)
    (m : Z) (l : string) :
  In l labels ->
  len (measured_text nan_format l)
  <= fold_left
       (fun max_len row =>
          match row with
          | console.Row cols => fold_left (console.max_value nan_format) cols max_len
          | console.Atom a => console.max_value nan_format max_len a
          end) (map console.Atom labels) m.
Proof.
  revert m. induction labels as [|a labels IH]; intros m; simpl; [contradiction|].
  intros [->|Hin].
  - pose proof (max_len_items_ge nan_format (map console.Atom labels)
                  (console.max_value nan_format m l)) as H.
    rewrite max_value_spec in *. lia.
  - now apply IH.
Qed.


(** X14: [__max_len_value] is never negative, is zero on the empty list,
    and is at least the length of the text measured for every cell of a
    matrix and for every label of a list of labels (the [nan_format] for
    the cells that read ['None'], ['nan'] or ['NaN'], the cell's own text
    for the others). *)
Theorem max_len_value_bounds_every_cell
    (matrix : list (list string)) (labels : list string) (nan_format : string) :
  0 <= console.__max_len_value (map console.Row matrix) nan_format
  /\ console.__max_len_value [] nan_format = 0
  /\ (forall row cell, In row matrix -> In cell row ->
        len (measured_text nan_format cell)
        <= console.__max_len_value (map console.Row matrix) nan_format)
  /\ (forall l, In l labels ->
        len (measured_text nan_format l)
        <= console.__max_len_value (map console.Atom labels) nan_format).
Proof.
  unfold console.__max_len_value.
  split; [apply max_len_items_ge|].
  split; [reflexivity|].
  split; intros.
  - now apply max_len_items_bound_row with (row := row).
  - now apply max_len_items_bound_atom.
Qed.

Lemma max_len_value_bounds_every_cell_witness :
  In ["7"; "None"] [["1234"; "5"]; ["7"; "None"]] /\
  In "None" ["7"; "None"] /\
  len (measured_text "n/a" "None")
  <= console.__max_len_value
       (map console.Row [["1234"; "5"]; ["7"; "None"]]) "n/a".
Proof.
  assert (H1 : In ["7"; "None"] [["1234"; "5"]; ["7"; "None"]])
    by (simpl; tauto).
  assert (H2 : In "None" ["7"; "None"]) by (simpl; tauto).
  split; [exact H1|]. split; [exact H2|].
  destruct (max_len_value_bounds_every_cell
              [["1234"; "5"]; ["7"; "None"]] [] "n/a") as (_ & _ & H & _).
  exact (H _ _ H1 H2).
Defined.




(* ------------------------------------------------------------------ *)
(** ** Matrices: the empty matrix                                      *)
(* ------------------------------------------------------------------ *)

(** X16: on the empty matrix, [print_matrix] with the numbered header
    (['all'], the default) raises [IndexError] before anything is printed,
    whatever the style, a style it does not know included; with another
    header, the styles that draw a frame raise [IndexError] as well; with
    no header, no style or the numpy style print nothing and return. *)
Theorem print_matrix_of_empty_matrix
    (Line : console.LineGlyphs) (header indexes : console.labels)
    (style : option string) (nan_format : string) (color : option string)
    (color_index color_style : string) (withlvl : bool) (w : World) :
  console.print_matrix Line [] (console.LStr "all") indexes style nan_format
                       color color_index color_style withlvl w
  = (Raise IndexError, w)
  /\ (forall s,
        console.labels_eq_str header "all" = false ->
        str_in s framed_styles = true ->
        console.print_matrix Line [] header indexes (Some s) nan_format color
                             color_index color_style withlvl w
        = (Raise IndexError, w))
  /\ (style = None \/ style = Some "numpy" \/ style = Some "np" ->
      console.print_matrix Line [] console.LNone indexes style nan_format color
                           color_index color_style withlvl w
      = (Ok tt, w)).
Proof.
  split; [reflexivity|]. split.
  - intros s Hh Hs.
    unfold console.print_matrix, bind. rewrite Hh. unfold ret.
    unfold framed_styles, str_in in Hs. simpl existsb in Hs.
    repeat (apply orb_prop in Hs; destruct Hs as [Hs|Hs];
            [apply String.eqb_eq in Hs; subst s; reflexivity|]).
    discriminate.
  - intros [-> | [-> | ->]]; reflexivity.
Qed.

Lemma print_matrix_of_empty_matrix_witness :
  console.labels_eq_str (console.LList ["a"]) "all" = false /\
  str_in "dl" framed_styles = true /\
  forall Line,
    console.print_matrix Line [] (console.LList ["a"]) console.LNone (Some "dl")
                         "" (Some "") "" "" true fresh_world
    = (Raise IndexError, fresh_world)
    /\ console.print_matrix Line [] console.LNone console.LNone None
                            "" (Some "") "" "" true fresh_world
       = (Ok tt, fresh_world).
Proof.
  assert (H1 : console.labels_eq_str (console.LList ["a"]) "all" = false)
    by reflexivity.
  assert (H2 : str_in "dl" framed_styles = true) by reflexivity.
  split; [exact H1|]. split; [exact H2|]. intros Line.
  destruct (print_matrix_of_empty_matrix Line (console.LList ["a"])
              console.LNone None "" (Some "") "" "" true fresh_world)
    as (_ & Hf & Hn).
  split; [exact (Hf "dl" H1 H2) | apply Hn; now left].
Defined.





Lemma total_print_matrix_header header len_index color_index extra_spacing
    withlvl max_len_value lvl_space :
  total (console.__print_matrix_header header len_index color_index
           extra_spacing withlvl max_len_value lvl_space).
Proof.
  unfold console.__print_matrix_header, console._ConsoleConfig_indentation_lvl.
  apply total_read_bind; intros lvl.
  apply total_seq; [apply total_println|].
  apply total_seq; [|apply total_new_line].
  apply total_for_each; intros h. apply total_println.
Qed.

Lemma total_print_border_line border color_style :
  total (console.print_border_line border color_style).
Proof.
  unfold console.print_border_line. destruct border as [l|]; [|apply total_ret].
  destruct (negb (String.eqb l "")); [apply total_println | apply total_ret].
Qed.


(* ------------------------------------------------------------------ *)
(** ** The rows of a text box                                          *)
(* ------------------------------------------------------------------ *)









(* ------------------------------------------------------------------ *)
(** ** The geometry of the progress bar                                *)
(* ------------------------------------------------------------------ *)

Lemma len_str_mul (s : string) (k : Z) : 0 <= k -> len (str_mul s k) = k * len s.
Proof.
  intros H. unfold len, str_mul. rewrite length_str_rep.
  rewrite Nat2Z.inj_mul, Z2Nat.id; lia.
Qed.

Lemma filled_cells_in_range (progress : Q) (width : Z) :
  (0 <= progress)%Q -> (progress <= 1)%Q -> 0 <= width ->
  0 <= Qfloor (progress * inject_Z width) <= width.
Proof.
  intros H0 H1 Hw. split.
  - change 0 with (Qfloor 0).
    apply Qfloor_resp_le. now apply scaled_progress_nonneg.
  - rewrite <- (Qfloor_Z width) at 2.
    apply Qfloor_resp_le.
    rewrite <- (Qmult_1_l (inject_Z width)) at 2.
    apply Qmult_le_compat_r; [exact H1|].
    change 0%Q with (inject_Z 0). now rewrite <- Zle_Qle.
Qed.

(** X19: for a valid call with a one-character [spacing], the number of
    filled cells is between zero and [width], and without the percentage
    the bar that [progress_bar] prints is [width + 2] characters wide
    whatever the progress: the bar does not change its length as it
    fills. *)
Theorem progress_bar_has_constant_width
    (progress : Q) (width : Z) (bar start_bar end_bar spacing : string)
    (kwargs : console.println_kwargs) (w : World) :
  (0 <= progress)%Q -> (progress <= 1)%Q -> 0 <= width ->
  len bar = 1 -> len start_bar = 1 -> len end_bar = 1 -> len spacing = 1 ->
  0 <= console.int_of_Q (progress * inject_Z width) <= width
  /\ exists text,
       console.progress_bar progress width bar start_bar end_bar spacing false
                            kwargs w
       = console.println_kw text kwargs w
       /\ len text = width + 2.
Proof.
  intros H0 H1 Hw Hb Hs He Hsp.
  pose proof (filled_cells_in_range H0 H1 Hw) as Hf.
  split.
  - now rewrite (int_of_Q_floor (scaled_progress_nonneg H0 Hw)).
  - eexists. split.
    + now apply progress_bar_on_valid_input.
    + rewrite !len_append, !len_str_mul by lia.
      rewrite Hb, Hs, He, Hsp. change (len "") with 0. lia.
Qed.

Lemma progress_bar_has_constant_width_witness :
  (0 <= 1 # 3)%Q /\ (1 # 3 <= 1)%Q /\ 0 <= 10 /\
  len "#" = 1 /\ len "[" = 1 /\ len "]" = 1 /\ len "." = 1 /\
  exists text,
    console.progress_bar (1 # 3) 10 "#" "[" "]" "." false console.no_kwargs
                         fresh_world
    = console.println_kw text console.no_kwargs fresh_world
    /\ len text = 10 + 2.
Proof.
  assert (H0 : (0 <= 1 # 3)%Q) by (unfold Qle; simpl; lia).
  assert (H1 : (1 # 3 <= 1)%Q) by (unfold Qle; simpl; lia).
  assert (Hw : 0 <= 10) by lia.
  assert (Hb : len "#" = 1) by reflexivity.
  assert (Hs : len "[" = 1) by reflexivity.
  assert (He : len "]" = 1) by reflexivity.
  assert (Hp : len "." = 1) by reflexivity.
  repeat (split; [assumption|]).
  exact (proj2 (@progress_bar_has_constant_width (1 # 3) 10 "#" "[" "]" "."
                  console.no_kwargs fresh_world H0 H1 Hw Hb Hs He Hp)).
Defined.

(** X20: at the two ends of the range the bar is all of one glyph: a
    progress of 0 prints the start glyph, [width] spacing glyphs, the end
    glyph and [' (0%)'], and a progress of 1 prints [width] bar glyphs
    between the two and [' (100%)'], for every width of at least zero. *)
Theorem progress_bar_at_the_ends
    (width : Z) (bar start_bar end_bar spacing : string) (pct : bool)
    (kwargs : console.println_kwargs) (w : World) :
  0 <= width -> len bar = 1 -> len start_bar = 1 -> len end_bar = 1 ->
  console.progress_bar 0 width bar start_bar end_bar spacing pct kwargs w
  = console.println_kw
      (start_bar ++ str_mul spacing width ++ end_bar
       ++ (if pct then " (0%)" else "")) kwargs w
  /\ console.progress_bar 1 width bar start_bar end_bar spacing pct kwargs w
     = console.println_kw
         (start_bar ++ str_mul bar width ++ end_bar
          ++ (if pct then " (100%)" else "")) kwargs w.
Proof.
  intros Hw Hb Hs He.
  assert (H00 : (0 <= 0)%Q) by (unfold Qle; simpl; lia).
  assert (H01 : (0 <= 1)%Q) by (unfold Qle; simpl; lia).
  assert (H11 : (1 <= 1)%Q) by (unfold Qle; simpl; lia).
  split.
  - rewrite (@progress_bar_on_valid_input 0 width bar start_bar end_bar spacing
               pct kwargs w H00 H01 Hw Hb Hs He).
    assert (E : Qfloor (0 * inject_Z width) = 0).
    { unfold Qfloor, Qmult, inject_Z. simpl. reflexivity. }
    rewrite E, Z.sub_0_r. destruct pct; reflexivity.
  - rewrite (@progress_bar_on_valid_input 1 width bar start_bar end_bar spacing
               pct kwargs w H01 H11 Hw Hb Hs He).
    assert (E : Qfloor (1 * inject_Z width) = width).
    { rewrite Qmult_1_l. apply Qfloor_Z. }
    rewrite E, Z.sub_diag. destruct pct; reflexivity.
Qed.

Lemma progress_bar_at_the_ends_witness :
  0 <= 10 /\ len "#" = 1 /\ len "[" = 1 /\ len "]" = 1 /\
  stdout (world_after
            (console.progress_bar 0 10 "#" "[" "]" "." true console.no_kwargs)
            fresh_world)
  = "[..........] (0%)" ++ reset ++ newline /\
  stdout (world_after
            (console.progress_bar 1 10 "#" "[" "]" "." true console.no_kwargs)
            fresh_world)
  = "[##########] (100%)" ++ reset ++ newline.
Proof.
  assert (Hw : 0 <= 10) by lia.
  assert (Hb : len "#" = 1) by reflexivity.
  assert (Hs : len "[" = 1) by reflexivity.
  assert (He : len "]" = 1) by reflexivity.
  repeat (split; [assumption|]).
  destruct (@progress_bar_at_the_ends 10 "#" "[" "]" "." true console.no_kwargs
              fresh_world Hw Hb Hs He) as [E0 E1].
  unfold world_after. rewrite E0, E1. split; reflexivity.
Defined.

(* ------------------------------------------------------------------ *)
(** ** The [block] decorator                                           *)
(* ------------------------------------------------------------------ *)

Lemma block_title (mb : console.message_block) (w : World) :
  match mb with
  | console.TitleStr s => ret s
  | console.TitleDict d => l <- read language ;; ret (d l)
  end w = (Ok (title_of mb w), w).
Proof. destruct mb; reflexivity. Qed.

Lemma new_line_effect (w : World) :
  _is_init (engine w) = true ->
  console.new_line w = (Ok tt, set_stdout (stdout w ++ reset ++ newline) w).
Proof.
  intros Hi. unfold console.new_line. rewrite println_effect. cbv zeta.
  rewrite (_init_when_initialized _ Hi). reflexivity.
Qed.

(** X21: on a configuration that is ready for blocks, if the wrapped
    function returns a value and leaves the Console Engine's configuration
    as it found it, then the call wrapped by [block] returns that same
    value and the configuration, the indentation included, is afterwards
    what it was before the call. *)
Theorem block_returns_value_and_restores
    {A} (mb : console.message_block) (text_color bg_color : string)
    (func : M A) (v : A) (w : World) :
  block_ready (engine w) ->
  (forall w0, _is_init (engine w0) = true ->
     exists w1, func w0 = (Ok v, w1) /\ engine w1 = engine w0) ->
  exists w',
    console.block mb text_color bg_color func w = (Ok v, w')
    /\ engine w' = engine w.
Proof.
  intros (Hi & Hu & Hv) Hf.
  unfold console.block. unfold bind at 1. rewrite block_title.
  unfold bind at 1. rewrite (start_block_effect _ _ _ _ Hi).
  set (w1 := after_start_block [title_of mb w] text_color bg_color w).
  assert (Hi1 : _is_init (engine w1) = true) by exact Hi.
  unfold bind at 1. rewrite (new_line_effect _ Hi1).
  set (w2 := set_stdout (stdout w1 ++ reset ++ newline) w1).
  assert (Hi2 : _is_init (engine w2) = true) by exact Hi.
  unfold bind at 1. destruct (Hf w2 Hi2) as (w3 & E3 & G3). rewrite E3.
  assert (Hi3 : _is_init (engine w3) = true) by (rewrite G3; exact Hi).
  unfold bind at 1. rewrite (new_line_effect _ Hi3).
  unfold bind at 1. rewrite end_block_effect by exact Hi3.
  unfold ret. eexists. split; [reflexivity|].
  unfold after_end_block. simpl. rewrite G3. simpl.
  rewrite (@slice_to_added_level _ _ _ Hu Hv).
  now destruct (engine w).
Qed.

Lemma block_returns_value_and_restores_witness :
  block_ready (engine world_two_levels) /\
  (forall w0, _is_init (engine w0) = true ->
     exists w1, @ret Z 7 w0 = (Ok 7, w1) /\ engine w1 = engine w0) /\
  exists w',
    console.block (console.TitleStr "load") "BLUE" "" (ret 7) world_two_levels
    = (Ok 7, w')
    /\ engine w' = engine world_two_levels.
Proof.
  assert (H1 : block_ready (engine world_two_levels)).
  { split; [reflexivity|]. split; [reflexivity|]. left. simpl. lia. }
  assert (H2 : forall w0, _is_init (engine w0) = true ->
                 exists w1, @ret Z 7 w0 = (Ok 7, w1) /\ engine w1 = engine w0).
  { intros w0 _. exists w0. split; reflexivity. }
  split; [exact H1|]. split; [exact H2|].
  exact (@block_returns_value_and_restores Z (console.TitleStr "load") "BLUE" ""
           (ret 7) 7 world_two_levels H1 H2).
Defined.

(** X22: if the wrapped function raises (leaving the configuration as it
    found it), the call wrapped by [block] raises the same exception and
    [end_block] is not reached: on an initialised engine the indentation is
    left one level deeper than before the call. *)
Theorem block_leaves_level_open_when_body_raises
    {A} (mb : console.message_block) (text_color bg_color : string)
    (func : M A) (e : exn) (w : World) :
  _is_init (engine w) = true ->
  (forall w0, exists w1, func w0 = (Raise e, w1) /\ engine w1 = engine w0) ->
  exists w',
    console.block mb text_color bg_color func w = (Raise e, w')
    /\ engine w'
       = with__indentation_lvl
           (_indentation_lvl (engine w)
            ++ str_mul (_indentation_type (engine w))
                       (_indentantion_size (engine w)))
           (engine w).
Proof.
  intros Hi Hf.
  unfold console.block. unfold bind at 1. rewrite block_title.
  unfold bind at 1. rewrite (start_block_effect _ _ _ _ Hi).
  set (w1 := after_start_block [title_of mb w] text_color bg_color w).
  assert (Hi1 : _is_init (engine w1) = true) by exact Hi.
  unfold bind at 1. rewrite (new_line_effect _ Hi1).
  set (w2 := set_stdout (stdout w1 ++ reset ++ newline) w1).
  unfold bind at 1. destruct (Hf w2) as (w3 & E3 & G3). rewrite E3.
  exists w3. split; [reflexivity|]. rewrite G3. reflexivity.
Qed.

Lemma block_leaves_level_open_when_body_raises_witness :
  _is_init (engine world_two_levels) = true /\
  (forall w0, exists w1,
     @raise unit (ValueError "boom") w0 = (Raise (ValueError "boom"), w1)
     /\ engine w1 = engine w0) /\
  exists w',
    console.block (console.TitleStr "load") "BLUE" ""
                  (@raise unit (ValueError "boom")) world_two_levels
    = (Raise (ValueError "boom"), w')
    /\ _indentation_lvl (engine w') = "      ".
Proof.
  assert (H1 : _is_init (engine world_two_levels) = true) by reflexivity.
  assert (H2 : forall w0, exists w1,
                 @raise unit (ValueError "boom") w0
                 = (Raise (ValueError "boom"), w1)
                 /\ engine w1 = engine w0).
  { intros w0. exists w0. split; reflexivity. }
  split; [exact H1|]. split; [exact H2|].
  destruct (@block_leaves_level_open_when_body_raises unit
              (console.TitleStr "load") "BLUE" "" (raise (ValueError "boom"))
              (ValueError "boom") world_two_levels H1 H2) as (w' & E & G).
  exists w'. split; [exact E|]. rewrite G. reflexivity.
Defined.

(* ------------------------------------------------------------------ *)
(** ** Starting the Legacy Facade                                      *)
(* ------------------------------------------------------------------ *)

(** X23: [start_console] of the Legacy Facade overwrites the whole
    configuration of the facade, whatever it was, with its arguments, an
    empty indentation and the started flag, and with [clear] it runs the
    screen-clear command exactly once (['cls'] when [platform.system()] is
    ['Windows'], ['clear'] otherwise); it writes nothing and leaves the
    Console Engine alone. *)
Theorem legacy_start_console_overwrites_and_clears_once
    (w : World) (clear : bool) (itype : string) (isize : Z) (autoreset : bool) :
  let cmd := if String.eqb (platform_system w) "Windows" then "cls" else "clear" in
  let w' := world_after (consoleverse.start_console clear itype isize autoreset) w in
  result_of (consoleverse.start_console clear itype isize autoreset) w = Ok tt
  /\ facade w' = mkConsoleConfig itype "" isize true autoreset
  /\ os_calls w' = (os_calls w ++ (if clear then [cmd] else []))%list
  /\ stdout w' = stdout w
  /\ engine w' = engine w.
Proof.
  unfold result_of, world_after, consoleverse.start_console,
    consoleverse.clear_screen, os_system, modify, read, bind, ret.
  destruct clear; simpl.
  - destruct (String.eqb (platform_system w) "Windows"); simpl;
      repeat split; reflexivity.
  - rewrite app_nil_r. repeat split; reflexivity.
Qed.

(* ------------------------------------------------------------------ *)
(** ** Matrices: index labels and rows                                 *)
(* ------------------------------------------------------------------ *)

Lemma index_name_of_covered indexes len_index (j n : nat) :
  labels_cover indexes n -> (j < n)%nat ->
  forall w, exists a, console.index_name_of indexes len_index j w = (Ok a, w).
Proof.
  intros [-> | (idx & -> & Hn)] Hj w.
  - eexists. reflexivity.
  - unfold console.index_name_of, console.labels_index, bind, lift, ret.
    simpl console.labels_iter.
    destruct (nth_error idx j) as [x|] eqn:E.
    + eexists. reflexivity.
    + apply nth_error_None in E. lia.
Qed.


Lemma total_after_value {A} (m : M A) (k : A -> M unit) :
  (forall w, exists a, m w = (Ok a, w)) -> (forall a, total (k a)) ->
  total (bind m k).
Proof.
  intros Hm Hk w. unfold bind. destruct (Hm w) as [a ->]. apply Hk.
Qed.

Lemma total_for_enumerate {A} (rows : list A) (body : nat -> A -> M unit)
    (n i : nat) :
  (forall j r, (j < n)%nat -> total (body j r)) ->
  (i + Datatypes.length rows <= n)%nat ->
  total (console.for_enumerate i rows body).
Proof.
  intros Hb. revert i. induction rows as [|r rows IH]; intros i Hi.
  - apply total_ret.
  - simpl in *. apply total_seq; [apply Hb; lia | apply IH; lia].
Qed.


Lemma total_row_after_index indexes len_index j n row max_len_value color
    nan_format color_style color_index end_line start_line indentation :
  labels_cover indexes n -> (j < n)%nat ->
  total (index_name <- console.index_name_of indexes len_index j ;;
         console.__print_matrix_row row max_len_value (Some color) nan_format
           color_style color_index end_line start_line index_name indentation).
Proof.
  intros Hc Hj. apply total_after_value.
  - now apply index_name_of_covered with (n := n).
  - intros a. apply total_print_matrix_row.
Qed.

Lemma total_print_matrix_base matrix header indexes nan_format color
    color_index color_style max_len_value len_index style withlvl start_line
    end_line top_line bottom_line level_space :
  labels_cover indexes (Datatypes.length matrix) ->
  total (console.__print_matrix_base matrix header indexes nan_format
           (Some color) color_index color_style max_len_value len_index style
           withlvl start_line end_line top_line bottom_line level_space).
Proof.
  intros Hc.
  unfold console.__print_matrix_base, console._ConsoleConfig_indentation_lvl.
  apply total_read_bind; intros lvl.
  apply total_seq.
  { destruct (console.labels_truthy header);
      [apply total_print_matrix_header | apply total_ret]. }
  apply total_seq; [apply total_print_border_line|].
  apply total_seq; [|apply total_print_border_line].
  apply total_for_enumerate with (n := Datatypes.length matrix); [|simpl; lia].
  intros j r Hj. now apply total_row_after_index with (n := Datatypes.length matrix).
Qed.


Lemma total_numpy_style matrix header indexes style nan_format color
    color_index color_style max_len_value len_index withlvl :
  labels_cover indexes (Datatypes.length matrix) ->
  total (console.__print_matrix_numpy_style matrix header indexes style
           nan_format (Some color) color_index color_style max_len_value
           len_index withlvl).
Proof.
  intros Hc.
  unfold console.__print_matrix_numpy_style,
    console._ConsoleConfig_indentation_lvl.
  apply total_read_bind; intros lvl.
  apply total_seq.
  { destruct header;
      [apply total_ret | apply total_print_matrix_header
                       | apply total_print_matrix_header]. }
  apply total_for_enumerate with (n := Datatypes.length matrix); [|simpl; lia].
  intros j r Hj. apply total_seq.
  - destruct (Nat.eqb j 0); apply total_println.
  - now apply total_row_after_index with (n := Datatypes.length matrix).
Qed.


Lemma total_after {A} (m : M A) (k : A -> M unit) :
  (forall w, exists a w1, m w = (Ok a, w1)) -> (forall a, total (k a)) ->
  total (bind m k).
Proof.
  intros Hm Hk w. unfold bind. destruct (Hm w) as (a & w1 & ->). apply Hk.
Qed.

Lemma bottom_line_returns (style indentation spaces div : string) (w : World) :
  exists a w1,
    (if String.eqb style "box"
     then ret (Some (indentation ++ spaces ++ div))
     else console.new_line ;; ret None) w = (Ok a, w1).
Proof.
  destruct (String.eqb style "box").
  - unfold ret. eauto.
  - unfold bind. destruct (total_new_line w) as [w1 ->]. unfold ret. eauto.
Qed.

Lemma total_box_style row rest header indexes nan_format color color_index
    color_style max_len_value len_index style withlvl :
  labels_cover indexes (Datatypes.length (row :: rest)) ->
  total (console.__print_matrix_box_style (row :: rest) header indexes
           nan_format (Some color) color_index color_style max_len_value
           len_index style withlvl).
Proof.
  intros Hc.
  unfold console.__print_matrix_box_style,
    console._ConsoleConfig_indentation_lvl.
  apply total_after; [intros w; eexists; eexists; reflexivity | intros n].
  apply total_read_bind; intros lvl.
  apply total_after; [intros w; apply bottom_line_returns | intros b].
  now apply total_print_matrix_base.
Qed.


Lemma total_line_styles Line row rest header indexes nan_format color
    color_index color_style max_len_value len_index style withlvl :
  labels_cover indexes (Datatypes.length (row :: rest)) ->
  total (console.__print_matrix_simpleline_style Line (row :: rest) header
           indexes nan_format (Some color) color_index color_style
           max_len_value len_index style withlvl)
  /\ total (console.__print_matrix_doubleline_style Line (row :: rest) header
              indexes nan_format (Some color) color_index color_style
              max_len_value len_index style withlvl).
Proof.
  intros Hc.
  unfold console.__print_matrix_simpleline_style,
    console.__print_matrix_doubleline_style,
    console._ConsoleConfig_indentation_lvl.
  split;
    (apply total_after; [intros w; eexists; eexists; reflexivity | intros n]);
    apply total_read_bind; intros lvl; now apply total_print_matrix_base.
Qed.


Lemma header_resolution_returns (row : list string) rest header (w : World) :
  exists a w1,
    (if console.labels_eq_str header "all"
     then n <- lift (console.len_first_row (row :: rest)) ;;
          ret (console.LList (console.range_strs (Z.to_nat n)))
     else ret header) w = (Ok a, w1).
Proof.
  destruct (console.labels_eq_str header "all"); eexists; eexists; reflexivity.
Qed.

Lemma unknown_style_excluded (s : string) :
  str_in s matrix_styles = true ->
  str_in s ["box"; "semibox"] = false ->
  str_in s ["numpy"; "np"] = false ->
  str_in s ["simpleline"; "sl"; "line"] = false ->
  str_in s ["doubleline"; "dl"] = false ->
  False.
Proof.
  unfold matrix_styles, str_in. simpl existsb. intros Hs E1 E2 E3 E4.
  repeat match goal with
         | H : (_ || _)%bool = false |- _ =>
             apply orb_false_elim in H; destruct H
         end.
  repeat match goal with
         | H : String.eqb s _ = false |- _ => rewrite H in Hs; clear H
         end.
  discriminate Hs.
Qed.

Lemma range_strs_cover (n : nat) :
  labels_cover (console.LList (console.range_strs n)) n.
Proof.
  right. eexists. split; [reflexivity|].
  unfold console.range_strs. rewrite length_map, length_seq. lia.
Qed.

(** X24: with a string colour, no style or one of the nine style names,
    and index labels that reach every row (the numbered default, none at
    all, or a list at least as long as the matrix), [print_matrix] on a
    matrix with at least one row returns normally, whatever the header and
    whatever the lengths of the rows: ragged rows and a header of another
    length are printed as they are. *)
Theorem print_matrix_returns_when_rows_are_labelled
    (Line : console.LineGlyphs) (row : list string) (rest : list (list string))
    (header indexes : console.labels) (style : option string)
    (nan_format color color_index color_style : string) (withlvl : bool) :
  indexes = console.LStr "all"
  \/ labels_cover indexes (Datatypes.length (row :: rest)) ->
  style = None \/ (exists s, style = Some s /\ str_in s matrix_styles = true) ->
  total (console.print_matrix Line (row :: rest) header indexes style
           nan_format (Some color) color_index color_style withlvl).
Proof.
  intros Hi Hs. unfold console.print_matrix.
  assert (Hc : labels_cover
                 (if console.labels_eq_str indexes "all"
                  then console.LList
                         (console.range_strs (Datatypes.length (row :: rest)))
                  else indexes)
                 (Datatypes.length (row :: rest))).
  { destruct Hi as [-> | Hi].
    - change (console.labels_eq_str (console.LStr "all") "all") with true.
      cbv iota. apply range_strs_cover.
    - destruct Hi as [-> | (idx & -> & Hl)]; simpl console.labels_eq_str;
        cbv iota; [now left | right; eauto]. }
  apply total_after; [intros w; apply header_resolution_returns | intros h].
  destruct Hs as [-> | (s & -> & Hs)].
  - unfold console.__print_matrix_without_style.
    now apply total_print_matrix_base.
  - destruct (str_in s ["box"; "semibox"]) eqn:E1;
      [now apply total_box_style|].
    destruct (str_in s ["numpy"; "np"]) eqn:E2;
      [now apply total_numpy_style|].
    destruct (str_in s ["simpleline"; "sl"; "line"]) eqn:E3;
      [exact (proj1 (total_line_styles Line h nan_format color color_index
                       color_style _ _ s withlvl Hc))|].
    destruct (str_in s ["doubleline"; "dl"]) eqn:E4;
      [exact (proj2 (total_line_styles Line h nan_format color color_index
                       color_style _ _ s withlvl Hc))|].
    destruct (unknown_style_excluded s Hs E1 E2 E3 E4).
Qed.

Lemma print_matrix_returns_when_rows_are_labelled_witness :
  (console.LStr "all" = console.LStr "all"
   \/ labels_cover (console.LStr "all")
        (Datatypes.length [["1"; "2"; "3"]; ["4"]])) /\
  (Some "np" = None
   \/ exists s, Some "np" = Some s /\ str_in s matrix_styles = true) /\
  forall Line,
    result_of (console.print_matrix Line [["1"; "2"; "3"]; ["4"]]
                 (console.LList ["a"]) (console.LStr "all") (Some "np") "" (Some "")
                 "" "" true) fresh_world
    = Ok tt.
Proof.
  assert (H1 : console.LStr "all" = console.LStr "all"
               \/ labels_cover (console.LStr "all")
                    (Datatypes.length [["1"; "2"; "3"]; ["4"]]))
    by (left; reflexivity).
  assert (H2 : Some "np" = None
               \/ exists s, Some "np" = Some s /\ str_in s matrix_styles = true)
    by (right; exists "np"; split; reflexivity).
  split; [exact H1|]. split; [exact H2|]. intros Line.
  apply total_result.
  exact (@print_matrix_returns_when_rows_are_labelled Line ["1"; "2"; "3"]
           [["4"]] (console.LList ["a"]) (console.LStr "all") (Some "np") "" ""
           "" "" true H1 H2).
Defined.


